(** * sensAI basic models: a shallow embedding of [basic_models_base.py]

    The module under study is the evaluation harness of sensAI: tabular
    input/output data, the fit/predict contract of vector models with their
    transformer pipelines, the train/test split of the evaluators, the fold
    split of the cross validators and the chained regression predictor.

    Python objects are embedded as records, methods as functions that take
    the receiver explicitly, exceptions as the [Raise] branch of [result],
    and mutation of [self] as explicit state passing. *)

From Stdlib Require Import ZArith QArith Qround Lia Ascii DecimalString.
From stdpp Require Import base list strings gmap.

Open Scope string_scope.
Open Scope list_scope.
Open Scope Z_scope.

(** ** Exceptions and results *)

(** The exceptions the module raises itself, the ones pandas and the
    interpreter raise on its behalf, and [Raised] for whatever pluggable code
    (a transformer, a concrete model) throws. *)
Inductive exn : Type :=
| ValueError (msg : string)
| IndexError (msg : string)
| ZeroDivisionError (msg : string)
| Exception (msg : string)
| Raised (tag : string).

Inductive result (A : Type) : Type :=
| Ok (a : A)
| Raise (e : exn).
Arguments Ok {A} a.
Arguments Raise {A} e.

Definition succeeds {A} (r : result A) : Prop := ∃ a, r = Ok a.
Definition raises {A} (r : result A) : Prop := ∃ e, r = Raise e.

(** [result] is a monad; stdpp's [x ← r; k] notation and [mapM] apply. *)
Global Instance result_ret : MRet result := λ A a, Ok a.
Global Instance result_bind : MBind result := λ A B k r,
  match r with
  | Ok a => k a
  | Raise e => Raise e
  end.

(** ** Cell values and data frames *)

(** A cell of a frame: an integer, a string, or the missing value. *)
Inductive value : Type :=
| VInt (z : Z)
| VStr (s : string)
| VNaN.

Global Instance value_eq_dec : EqDecision value.
Proof. solve_decision. Defined.

(** Python's [str] on a cell. *)
Definition str (v : value) : string :=
  match v with
  | VInt z => NilZero.string_of_int (Z.to_int z)
  | VStr s => s
  | VNaN => "nan"
  end.

(** A [pd.DataFrame]: the ordered column names and the rows, each row
    carrying its label (its entry of [df.index]) and its cells. *)
Record DataFrame : Type := mkDataFrame {
  columns : list string;
  rows : list (value * list value)
}.

Definition len (df : DataFrame) : nat := length (rows df).
Definition df_index (df : DataFrame) : list value := (rows df).*1.
(** [df.shape[1]] *)
Definition shape1 (df : DataFrame) : nat := length (columns df).

(** ** Python sequence slicing *)

(** A slice bound is clamped into [0, len]; a negative bound counts from
    the end. *)
Definition slice_bound (n : nat) (i : Z) : nat :=
  if i <? 0 then Z.to_nat (Z.max 0 (i + Z.of_nat n))
  else Z.to_nat (Z.min i (Z.of_nat n)).

(** [l[lo:hi]] *)
Definition slice {A} (lo hi : Z) (l : list A) : list A :=
  let a := slice_bound (length l) lo in
  let b := slice_bound (length l) hi in
  take (b - a)%nat (drop a l).

(** [l[:hi]] *)
Definition slice_to {A} (hi : Z) (l : list A) : list A :=
  take (slice_bound (length l) hi) l.

(** [l[lo:]] *)
Definition slice_from {A} (lo : Z) (l : list A) : list A :=
  drop (slice_bound (length l) lo) l.

(** ** Positional row selection *)

(** One position of [df.iloc[indices]]: positions in [-n, n) are valid, a
    negative one counts from the end; anything else is an IndexError. *)
Definition iloc_row (df : DataFrame) (i : Z) : result (value * list value) :=
  let n := Z.of_nat (len df) in
  if (i <? - n) || (n <=? i)
  then Raise (IndexError "positional indexers are out-of-bounds")
  else
    match rows df !! Z.to_nat (if i <? 0 then i + n else i) with
    | Some r => Ok r
    | None => Raise (IndexError "positional indexers are out-of-bounds")
    end.

(** [df.iloc[indices]]: the rows at the given positions, in the given order,
    with their labels; the columns are kept. *)
Definition iloc (df : DataFrame) (indices : list Z) : result DataFrame :=
  rs ← mapM (iloc_row df) indices;
  Ok {| columns := columns df; rows := rs |}.

(** ** InputOutputData *)

Module InputOutputData.

Record t : Type := mk {
  inputs : DataFrame;
  outputs : DataFrame
}.

(** [InputOutputData.__init__] *)
Definition __init__ (inputs outputs : DataFrame) : result t :=
  if decide (len inputs ≠ len outputs)
  then Raise (ValueError "Lengths do not match")
  else Ok {| inputs := inputs; outputs := outputs |}.

(** [InputOutputData.__len__] *)
Definition __len__ (self : t) : nat := len (inputs self).

Definition inputDim (self : t) : nat := shape1 (inputs self).
Definition outputDim (self : t) : nat := shape1 (outputs self).

(** [InputOutputData.filterIndices] *)
Definition filterIndices (self : t) (indices : list Z) : result t :=
  inputs' ← iloc (inputs self) indices;
  outputs' ← iloc (outputs self) indices;
  __init__ inputs' outputs'.

(** The class invariant: both frames have the same number of rows. *)
Definition aligned (self : t) : Prop :=
  len (inputs self) = len (outputs self).

End InputOutputData.

(** ** Numbers

    [testFraction] is a rational: Python's [int] and [fractions.Fraction]
    compute with it exactly, and a finite [float] is read at its exact
    value (the rounding of a binary64 product is not part of this
    embedding). *)

(** Python's [int(q)]: truncation towards zero. *)
Definition py_int (q : Q) : Z := Z.quot (Qnum q) (Z.pos (Qden q)).

(** Python's [a // b] on integers: floor division, an error for [b = 0]. *)
Definition py_floordiv (a b : Z) : result Z :=
  if decide (b = 0)
  then Raise (ZeroDivisionError "integer division or modulo by zero")
  else Ok (a `div` b).

(** [range(n)] *)
Definition range (n : Z) : list Z := seqZ 0 n.

(** ** numpy's random generator

    The part of [np.random.RandomState] the module uses: the constructor
    from a seed, which makes a generator of its own, and the method
    [permutation(n)], which draws from the generator and so changes it. *)
Class RandomStateAPI (G : Type) : Type := {
  RandomState : Z → G;
  permutation : nat → G → list nat * G
}.

(** What numpy documents of [permutation(n)]: a permuted [range(n)]. *)
Definition permutes_range {G} `{!RandomStateAPI G} : Prop :=
  ∀ (n : nat) (g : G), (permutation n g).1 ≡ₚ seq 0 n.

(** ** VectorModelEvaluator *)

Module VectorModelEvaluator.
Section WithRandomState.
Context {G : Type} `{!RandomStateAPI G}.

Record t : Type := mk {
  testFraction : option Q;
  trainingData : InputOutputData.t;
  testData : InputOutputData.t
}.

(** The index split of the [testFraction] branch of [__init__]:
    [(trainingIndices, testIndices)]. *)
Definition split_indices (numDataPoints : nat) (testFraction : Q)
    (randomSeed : Z) : list nat * list nat :=
  let permutedIndices := (permutation numDataPoints (RandomState randomSeed)).1 in
  let splitIndex := py_int (inject_Z (Z.of_nat numDataPoints) * testFraction)%Q in
  let trainingIndices := slice_from splitIndex permutedIndices in
  let testIndices := slice_to splitIndex permutedIndices in
  (trainingIndices, testIndices).

(** [VectorModelEvaluator.__init__] *)
Definition __init__ (data : InputOutputData.t) (testFraction : option Q)
    (testData : option InputOutputData.t) (randomSeed : Z) : result t :=
  if bool_decide (testFraction = None ∧ testData = None)
  then Raise (Exception "Either testFraction or testData must be provided")
  else if bool_decide (testFraction ≠ None ∧ testData ≠ None)
  then Raise (Exception "Cannot provide both testFraction and testData")
  else
    match testFraction, testData with
    | Some fraction, _ =>
        if negb (Qle_bool 0 fraction && Qle_bool fraction 1)
        then Raise (Exception "invalid testFraction")
        else
          let numDataPoints := InputOutputData.__len__ data in
          let '(trainingIndices, testIndices) :=
            split_indices numDataPoints fraction randomSeed in
          trainingData ← InputOutputData.filterIndices data (Z.of_nat <$> trainingIndices);
          testData ← InputOutputData.filterIndices data (Z.of_nat <$> testIndices);
          Ok {| testFraction := testFraction;
                trainingData := trainingData; testData := testData |}
    | None, Some testData =>
        Ok {| testFraction := testFraction;
              trainingData := data; testData := testData |}
    | None, None =>
        Raise (Exception "Either testFraction or testData must be provided")
    end.

End WithRandomState.
End VectorModelEvaluator.

(** ** VectorModelCrossValidator *)

Module VectorModelCrossValidator.
Section WithRandomState.
Context {G : Type} `{!RandomStateAPI G}.

Record t : Type := mk {
  modelEvaluators : list VectorModelEvaluator.t
}.

(** The index sets of fold [i] in the loop of [__init__]:
    [(trainIndices, testIndices)]. *)
Definition fold_indices (permutedIndices : list nat) (numTestPoints i : Z)
    : list nat * list nat :=
  let testStartIdx := i * numTestPoints in
  let testEndIdx := testStartIdx + numTestPoints in
  let testIndices := slice testStartIdx testEndIdx permutedIndices in
  let trainIndices :=
    slice_to testStartIdx permutedIndices ++ slice_from testEndIdx permutedIndices in
  (trainIndices, testIndices).

(** [_createModelEvaluator] as both concrete cross validators implement it:
    an evaluator given its test data explicitly, with the default seed. *)
Definition _createModelEvaluator (trainingData testData : InputOutputData.t)
    : result VectorModelEvaluator.t :=
  VectorModelEvaluator.__init__ trainingData None (Some testData) 42.

(** [VectorModelCrossValidator.__init__] *)
Definition __init__ (data : InputOutputData.t) (folds : Z) (randomSeed : Z)
    : result t :=
  let numDataPoints := InputOutputData.__len__ data in
  let permutedIndices := (permutation numDataPoints (RandomState randomSeed)).1 in
  numTestPoints ← py_floordiv (Z.of_nat numDataPoints) folds;
  modelEvaluators ← mapM (λ i,
      let '(trainIndices, testIndices) :=
        fold_indices permutedIndices numTestPoints i in
      trainingData ← InputOutputData.filterIndices data (Z.of_nat <$> trainIndices);
      testData ← InputOutputData.filterIndices data (Z.of_nat <$> testIndices);
      _createModelEvaluator trainingData testData) (range folds);
  Ok {| modelEvaluators := modelEvaluators |}.

(** The per-fold index sets the constructor works with, fold by fold. *)
Definition folds_indices (numDataPoints : nat) (folds : Z) (randomSeed : Z)
    : result (list (list nat * list nat)) :=
  let permutedIndices := (permutation numDataPoints (RandomState randomSeed)).1 in
  numTestPoints ← py_floordiv (Z.of_nat numDataPoints) folds;
  Ok (fold_indices permutedIndices numTestPoints <$> range folds).

End WithRandomState.
End VectorModelCrossValidator.

(** ** Objects with mutable state

    A method of an object with attributes [S] that returns an [A]: it runs
    on the current attributes and yields a result together with the
    attributes it leaves behind, also when it raises. *)
Definition Obj (S A : Type) : Type := S → result A * S.

Global Instance obj_ret {S} : MRet (Obj S) := λ A a s, (Ok a, s).
Global Instance obj_bind {S} : MBind (Obj S) := λ A B k m s,
  match m s with
  | (Ok a, s') => k a s'
  | (Raise e, s') => (Raise e, s')
  end.

Definition gets {S A} (f : S → A) : Obj S A := λ s, (Ok (f s), s).
Definition modify {S} (f : S → S) : Obj S unit := λ s, (Ok (), f s).
Definition raise {S A} (e : exn) : Obj S A := λ s, (Raise e, s).
Definition lift {S A} (r : result A) : Obj S A := λ s, (r, s).

(** Runs a method of a component object stored in an attribute. *)
Definition zoom {S T A} (proj : S → T) (upd : T → S → S) (m : Obj T A)
    : Obj S A :=
  λ s, let '(r, c) := m (proj s) in (r, upd c s).

(** Unfolds one step of a method body. *)
Ltac run_method :=
  unfold mbind, obj_bind, mret, obj_ret, modify, gets, raise, lift, zoom;
  cbn beta iota.

(** ** The predictor interface *)

(** [PredictorModel]: the two abstract methods. *)
Class PredictorModel (P : Type) : Type := {
  predict : DataFrame → Obj P DataFrame;
  getPredictedVariableNames : P → option (list string)
}.

(** ** Data frame transformers *)

(** A [DataFrameTransformer] object: its attributes, whatever they are, and
    its two methods. [fit] may change the attributes, [apply] reads them. *)
Record DataFrameTransformer : Type := mkTransformer {
  tr_attrs : Type;
  tr_self : tr_attrs;
  tr_fit : DataFrame → Obj tr_attrs unit;
  tr_apply : tr_attrs → DataFrame → result DataFrame
}.

(** [transformer.fit(df)] on the object. *)
Definition transformer_fit (df : DataFrame) : Obj DataFrameTransformer unit :=
  λ t, let '(r, a) := tr_fit t df (tr_self t) in
       (r, {| tr_self := a; tr_fit := tr_fit t; tr_apply := tr_apply t |}).

(** [transformer.apply(df)] on the object. *)
Definition transformer_apply (df : DataFrame) : Obj DataFrameTransformer DataFrame :=
  λ t, (tr_apply t (tr_self t) df, t).

(** [RuleBasedDataFrameTransformer]: [fit] does nothing. *)
Definition RuleBasedDataFrameTransformer {A : Type} (attrs : A)
    (apply : A → DataFrame → result DataFrame) : DataFrameTransformer :=
  {| tr_self := attrs; tr_fit := λ _, mret (); tr_apply := apply |}.

(** ** Frame operations used by the models *)

(** [y.index = index]: pandas refuses an index of another length. *)
Definition set_index (y : DataFrame) (index : list value) : result DataFrame :=
  if decide (length index ≠ len y)
  then Raise (ValueError "Length mismatch")
  else Ok {| columns := columns y; rows := zip index (rows y).*2 |}.

(** [df.iloc[:, 0]]: the cells of the first column. *)
Definition iloc_column0 (df : DataFrame) : result (list value) :=
  match columns df with
  | [] => Raise (IndexError "single positional indexer is out-of-bounds")
  | _ :: _ => Ok ((λ r, hd VNaN r.2) <$> rows df)
  end.

(** [Series.unique()]: the distinct values in order of first appearance;
    [seen] holds what was met so far. *)
Fixpoint unique_from (seen : list value) (l : list value) : list value :=
  match l with
  | [] => []
  | v :: l' =>
      if bool_decide (v ∈ seen) then unique_from seen l'
      else v :: unique_from (v :: seen) l'
  end.

Definition unique (l : list value) : list value := unique_from [] l.

(** ** VectorModel *)

Module VectorModel.

(** The attributes of a [VectorModel]; [own] holds what the subclasses
    add. *)
Record t (MS : Type) : Type := mk {
  _inputTransformers : list DataFrameTransformer;
  _outputTransformers : list DataFrameTransformer;
  _trainingOutputTransformers : list DataFrameTransformer;
  _predictedVariableNames : option (list string);
  _modelInputVariableNames : option (list string);
  _modelOutputVariableNames : option (list string);
  own : MS
}.
Arguments mk {MS}.
Arguments _inputTransformers {MS}.
Arguments _outputTransformers {MS}.
Arguments _trainingOutputTransformers {MS}.
Arguments _predictedVariableNames {MS}.
Arguments _modelInputVariableNames {MS}.
Arguments _modelOutputVariableNames {MS}.
Arguments own {MS}.

(** The abstract methods [_fit] and [_predict]. A subclass reads all of
    [self] and writes the attributes it adds itself. *)
Class Abstract (MS : Type) : Type := {
  _fit : t MS → DataFrame → DataFrame → result unit * MS;
  _predict : t MS → DataFrame → result DataFrame * MS
}.

Section Methods.
Context {MS : Type} `{!Abstract MS}.

Definition set_inputTransformers (v : list DataFrameTransformer) (s : t MS) : t MS :=
  mk v (_outputTransformers s) (_trainingOutputTransformers s)
     (_predictedVariableNames s) (_modelInputVariableNames s)
     (_modelOutputVariableNames s) (own s).
Definition set_outputTransformers (v : list DataFrameTransformer) (s : t MS) : t MS :=
  mk (_inputTransformers s) v (_trainingOutputTransformers s)
     (_predictedVariableNames s) (_modelInputVariableNames s)
     (_modelOutputVariableNames s) (own s).
Definition set_trainingOutputTransformers (v : list DataFrameTransformer) (s : t MS) : t MS :=
  mk (_inputTransformers s) (_outputTransformers s) v
     (_predictedVariableNames s) (_modelInputVariableNames s)
     (_modelOutputVariableNames s) (own s).
Definition set_predictedVariableNames (v : option (list string)) (s : t MS) : t MS :=
  mk (_inputTransformers s) (_outputTransformers s) (_trainingOutputTransformers s)
     v (_modelInputVariableNames s) (_modelOutputVariableNames s) (own s).
Definition set_modelInputVariableNames (v : option (list string)) (s : t MS) : t MS :=
  mk (_inputTransformers s) (_outputTransformers s) (_trainingOutputTransformers s)
     (_predictedVariableNames s) v (_modelOutputVariableNames s) (own s).
Definition set_modelOutputVariableNames (v : option (list string)) (s : t MS) : t MS :=
  mk (_inputTransformers s) (_outputTransformers s) (_trainingOutputTransformers s)
     (_predictedVariableNames s) (_modelInputVariableNames s) v (own s).
Definition set_own (v : MS) (s : t MS) : t MS :=
  mk (_inputTransformers s) (_outputTransformers s) (_trainingOutputTransformers s)
     (_predictedVariableNames s) (_modelInputVariableNames s)
     (_modelOutputVariableNames s) v.

(** [VectorModel.__init__] *)
Definition __init__ (inputTransformers outputTransformers
    trainingOutputTransformers : list DataFrameTransformer) (own : MS) : t MS :=
  {| _inputTransformers := inputTransformers;
     _outputTransformers := outputTransformers;
     _trainingOutputTransformers := trainingOutputTransformers;
     _predictedVariableNames := None;
     _modelInputVariableNames := None;
     _modelOutputVariableNames := None;
     own := own |}.

(** [VectorModel._applyTransformers], a static method: the loop over the
    transformer objects, which [fit] mutates in place. *)
Fixpoint _applyTransformers (df : DataFrame) (fit : bool)
    (transformers : list DataFrameTransformer)
    : result DataFrame * list DataFrameTransformer :=
  match transformers with
  | [] => (Ok df, [])
  | transformer :: rest =>
      let '(r, transformer) :=
        (_ ← (if fit then transformer_fit df else mret ());
         transformer_apply df) transformer in
      match r with
      | Ok df =>
          let '(r, rest) := _applyTransformers df fit rest in
          (r, transformer :: rest)
      | Raise e => (Raise e, transformer :: rest)
      end
  end.

(** [VectorModel._applyInputTransformers] *)
Definition _applyInputTransformers (X : DataFrame) (fit : bool) : Obj (t MS) DataFrame :=
  zoom _inputTransformers set_inputTransformers (_applyTransformers X fit).

(** [VectorModel.getPredictedVariableNames] *)
Definition getPredictedVariableNames (self : t MS) : option (list string) :=
  _predictedVariableNames self.

(** [VectorModel.getModelOutputVariableNames] *)
Definition getModelOutputVariableNames (self : t MS) : option (list string) :=
  _modelOutputVariableNames self.

(** [VectorModel._checkAndTransformInputs] *)
Definition _checkAndTransformInputs (x : DataFrame) : Obj (t MS) DataFrame :=
  x ← _applyInputTransformers x false;
  names ← gets getPredictedVariableNames;
  if bool_decide (names = None)
  then raise (Exception "Cannot obtain predictions from non-trained model")
  else
    expected ← gets _modelInputVariableNames;
    if bool_decide (Some (columns x) ≠ expected)
    then raise (Exception "Inadmissible input data frame")
    else mret x.

(** The call [self._predict(x)]. *)
Definition call_predict (x : DataFrame) : Obj (t MS) DataFrame :=
  λ self, let '(r, o) := _predict self x in (r, set_own o self).

(** The call [self._fit(X, Y)]. *)
Definition call_fit (X Y : DataFrame) : Obj (t MS) unit :=
  λ self, let '(r, o) := _fit self X Y in (r, set_own o self).

(** [VectorModel.predict] *)
Definition predict (x : DataFrame) : Obj (t MS) DataFrame :=
  x ← _checkAndTransformInputs x;
  y ← call_predict x;
  y ← lift (set_index y (df_index x));
  y ← zoom _outputTransformers set_outputTransformers (_applyTransformers y false);
  mret y.

(** [VectorModel.fit] *)
Definition fit (X Y : DataFrame) : Obj (t MS) unit :=
  _ ← modify (set_predictedVariableNames (Some (columns Y)));
  X ← _applyInputTransformers X true;
  Y ← zoom _trainingOutputTransformers set_trainingOutputTransformers
        (_applyTransformers Y true);
  _ ← modify (set_modelInputVariableNames (Some (columns X)));
  _ ← modify (set_modelOutputVariableNames (Some (columns Y)));
  call_fit X Y.

End Methods.

End VectorModel.

(** A vector model is a predictor model. *)
Global Instance VectorModel_predictor {MS} `{!VectorModel.Abstract MS}
    : PredictorModel (VectorModel.t MS) := {|
  predict := VectorModel.predict;
  getPredictedVariableNames := VectorModel.getPredictedVariableNames
|}.

(** ** VectorClassificationModel *)

Module VectorClassificationModel.

(** What the class adds to a vector model: the label list, and whatever
    the concrete classifier keeps. *)
Record attrs (CS : Type) : Type := mkAttrs {
  _labels : option (list string);
  classifier : CS
}.
Arguments mkAttrs {CS}.
Arguments _labels {CS}.
Arguments classifier {CS}.

Abbreviation t CS := (VectorModel.t (attrs CS)).

(** The abstract methods of a classifier. *)
Class Abstract (CS : Type) : Type := {
  _fitClassifier : t CS → DataFrame → DataFrame → result unit * CS;
  _predict : t CS → DataFrame → result DataFrame * CS;
  _predict_proba : t CS → DataFrame → result DataFrame * CS
}.

Section Methods.
Context {CS : Type} `{!Abstract CS}.

Definition set_labels (v : option (list string)) (s : t CS) : t CS :=
  VectorModel.set_own (mkAttrs v (classifier (VectorModel.own s))) s.

Definition set_classifier (v : CS) (s : t CS) : t CS :=
  VectorModel.set_own (mkAttrs (_labels (VectorModel.own s)) v) s.

(** [VectorClassificationModel.__init__] *)
Definition __init__ (inputTransformers : list DataFrameTransformer)
    (classifier : CS) : t CS :=
  VectorModel.__init__ inputTransformers [] []
    {| _labels := None; classifier := classifier |}.

(** The call [self._fitClassifier(X, Y)]. *)
Definition call_fitClassifier (X Y : DataFrame) : Obj (t CS) unit :=
  λ self, let '(r, c) := _fitClassifier self X Y in (r, set_classifier c self).

(** [VectorClassificationModel._fit] as a method of the object. *)
Definition fit_method (X Y : DataFrame) : Obj (t CS) unit :=
  column ← lift (iloc_column0 Y);
  _ ← modify (set_labels (Some (str <$> unique column)));
  call_fitClassifier X Y.

(** [VectorClassificationModel._fit], in the shape [VectorModel] expects
    of its abstract method. *)
Definition _fit (self : t CS) (X Y : DataFrame) : result unit * attrs CS :=
  let '(r, self) := fit_method X Y self in (r, VectorModel.own self).

Global Instance vector_model : VectorModel.Abstract (attrs CS) := {|
  VectorModel._fit := _fit;
  VectorModel._predict := λ self x,
    let '(r, c) := _predict self x in
    (r, mkAttrs (_labels (VectorModel.own self)) c)
|}.

(** The call [self._predict_proba(x)]. *)
Definition call_predict_proba (x : DataFrame) : Obj (t CS) DataFrame :=
  λ self, let '(r, c) := _predict_proba self x in (r, set_classifier c self).

(** [VectorClassificationModel.predict_proba] *)
Definition predict_proba (x : DataFrame) : Obj (t CS) DataFrame :=
  x ← VectorModel._checkAndTransformInputs x;
  call_predict_proba x.

End Methods.
End VectorClassificationModel.

(** ** ChainedVectorRegressionPredictor *)

Module ChainedVectorRegressionPredictor.
Section WithPredictor.
Context {P : Type} `{!PredictorModel P}.

Record t : Type := mk {
  nChainedPredictions : Z;
  predictor : P
}.

Definition set_predictor (v : P) (s : t) : t :=
  {| nChainedPredictions := nChainedPredictions s; predictor := v |}.

(** [ChainedVectorRegressionPredictor.__init__]: it stores its arguments. *)
Definition __init__ (predictor : P) (nChainedPredictions : Z) : t :=
  {| nChainedPredictions := nChainedPredictions; predictor := predictor |}.

(** The call [self.predictor.predict(x)]. *)
Definition call_predictor (x : DataFrame) : Obj t DataFrame :=
  zoom predictor set_predictor (predict x).

(** The [while] loop of [predict]: [nPredictions] starts at 1 and grows by
    one per round until it reaches [nChainedPredictions], so the body runs
    [remaining = max 0 (nChainedPredictions - 1)] times. *)
Fixpoint chain (remaining : nat) (predictions : DataFrame) : Obj t DataFrame :=
  match remaining with
  | O => mret predictions
  | S remaining =>
      predictions ← call_predictor predictions;
      chain remaining predictions
  end.

(** [ChainedVectorRegressionPredictor.predict] *)
Definition predict (x : DataFrame) : Obj t DataFrame :=
  let nPredictions := 1 in
  predictions ← call_predictor x;
  let (inputDim, outputDim) := (shape1 predictions, shape1 x) in
  if bool_decide (inputDim ≠ outputDim)
  then raise (Exception "Model cannot be used for chained execution: inputDim does not match outputDim")
  else
    n ← gets nChainedPredictions;
    chain (Z.to_nat (n - nPredictions)) predictions.

End WithPredictor.
Arguments t P : clear implicits.
End ChainedVectorRegressionPredictor.

Module Chained := ChainedVectorRegressionPredictor.

Global Instance Chained_predictor {P} `{!PredictorModel P}
    : PredictorModel (ChainedVectorRegressionPredictor.t P) := {|
  predict := ChainedVectorRegressionPredictor.predict;
  getPredictedVariableNames := λ self,
    getPredictedVariableNames (ChainedVectorRegressionPredictor.predictor self)
|}.

(** ** A recording predictor

    To speak about the calls a wrapper makes, the wrapped predictor is put
    behind a recorder that notes the argument of every [predict] call and
    otherwise behaves as the predictor it holds. *)
Record Recorder (P : Type) : Type := mkRecorder {
  recorded : P;
  calls : list DataFrame
}.
Arguments mkRecorder {P}.
Arguments recorded {P}.
Arguments calls {P}.

Global Instance Recorder_predictor {P} `{!PredictorModel P}
    : PredictorModel (Recorder P) := {|
  predict := λ x s,
    let '(r, p) := predict x (recorded s) in
    (r, {| recorded := p; calls := calls s ++ [x] |});
  getPredictedVariableNames := λ s, getPredictedVariableNames (recorded s)
|}.

(** ** Predicates of the statements *)

(** The instances a program can hold: what the constructor returned, and
    what [filterIndices] returned on an instance. *)
Inductive instance : InputOutputData.t → Prop :=
| instance_init inputs outputs d :
    InputOutputData.__init__ inputs outputs = Ok d → instance d
| instance_filter d indices d' :
    instance d → InputOutputData.filterIndices d indices = Ok d' → instance d'.



(** An evaluator of a cross validator is built from the rows at its
    fold's [(trainIndices, testIndices)]. *)
Definition built_from (data : InputOutputData.t)
    (indices : list nat * list nat) (ev : VectorModelEvaluator.t) : Prop :=
  InputOutputData.filterIndices data (Z.of_nat <$> indices.1)
    = Ok (VectorModelEvaluator.trainingData ev) ∧
  InputOutputData.filterIndices data (Z.of_nat <$> indices.2)
    = Ok (VectorModelEvaluator.testData ev).

(** ** The claims in the specification's own words *)


(** C2 in the words of the claim: when the dimensionalities differ, the
    failure comes before any call of the wrapped predictor's [predict]. *)
Definition fails_before_any_prediction {P} `{!PredictorModel P}
    (p : P) (n : Z) (x : DataFrame) : Prop :=
  ∀ y p', predict x p = (Ok y, p') → shape1 y ≠ shape1 x →
  ∀ e c',
    ChainedVectorRegressionPredictor.predict x
      (ChainedVectorRegressionPredictor.__init__ (mkRecorder p []) n)
      = (Raise e, c') →
    calls (ChainedVectorRegressionPredictor.predictor c') = [].

(** C8 in the words of the claim: with one chained prediction the chained
    [predict] succeeds exactly when the direct call succeeds, with the
    same result. *)
Definition chained_once_equals_direct {P} `{!PredictorModel P}
    (p : P) (x : DataFrame) : Prop :=
  (ChainedVectorRegressionPredictor.predict x
     (ChainedVectorRegressionPredictor.__init__ p 1)).1 = (predict x p).1.

(** Lexicographic order on strings, by character code. *)
Fixpoint string_leb (s1 s2 : string) : bool :=
  match s1, s2 with
  | EmptyString, _ => true
  | String _ _, EmptyString => false
  | String c1 r1, String c2 r2 =>
      let (n1, n2) := (nat_of_ascii c1, nat_of_ascii c2) in
      if (n1 <? n2)%nat then true
      else if (n2 <? n1)%nat then false
      else string_leb r1 r2
  end.

Fixpoint insert_sorted (s : string) (l : list string) : list string :=
  match l with
  | [] => [s]
  | s' :: l' =>
      if bool_decide (s = s') then l
      else if string_leb s s' then s :: l
      else s' :: insert_sorted s l'
  end.

(** "The sorted set of unique stringified labels found in Y's first
    column": the strings of the cells, without repetition, in ascending
    order. *)
Definition sorted_unique_labels (column : list value) : list string :=
  foldr insert_sorted [] (str <$> column).

(** ** Concrete objects for the examples *)

Module Examples.

(** A small generator: the state is an integer, a draw rotates
    [range(n)] by the state and steps the state. *)
Definition rotating_generator : RandomStateAPI Z := {|
  RandomState := λ seed, seed `mod` 2 ^ 32;
  permutation := λ n g,
    (rotate (Z.to_nat g) (seq 0 n), (1103515245 * g + 12345) `mod` 2 ^ 31)
|}.

Definition frame (cols : list string) (cells : list (list value)) : DataFrame :=
  {| columns := cols; rows := zip (VInt <$> seqZ 0 (Z.of_nat (length cells))) cells |}.

(** Five rows, two input columns, one output column. *)
Definition X5 : DataFrame :=
  frame ["a"; "b"]
    [[VInt 1; VInt 10]; [VInt 2; VInt 20]; [VInt 3; VInt 30];
     [VInt 4; VInt 40]; [VInt 5; VInt 50]].

Definition Y5 : DataFrame :=
  frame ["class"]
    [[VStr "b"]; [VStr "a"]; [VStr "b"]; [VStr "c"]; [VStr "a"]].

Definition data5 : InputOutputData.t :=
  {| InputOutputData.inputs := X5; InputOutputData.outputs := Y5 |}.

(** A stateless predictor that keeps the first column only. *)
Definition first_column (x : DataFrame) : DataFrame :=
  {| columns := take 1 (columns x);
     rows := (λ r, (r.1, take 1 r.2)) <$> rows x |}.

Definition FirstColumn : PredictorModel unit := {|
  predict := λ x, mret (first_column x);
  getPredictedVariableNames := λ _, Some ["a"]
|}.

(** A stateless predictor that returns its input. *)
Definition Identity : PredictorModel unit := {|
  predict := λ x, mret x;
  getPredictedVariableNames := λ _, Some ["a"; "b"]
|}.

(** A rule-based transformer that renames every column by a suffix. *)
Definition rename_columns (suffix : string) : DataFrameTransformer :=
  RuleBasedDataFrameTransformer suffix
    (λ suffix df, Ok {| columns := (λ c, c +:+ suffix) <$> columns df;
                        rows := rows df |}).

(** A concrete model that learns nothing and predicts its input. *)
Definition Echo : VectorModel.Abstract unit := {|
  VectorModel._fit := λ _ _ _, (Ok (), ());
  VectorModel._predict := λ _ x, (Ok x, ())
|}.

(** A concrete model whose prediction routine raises. *)
Definition Broken : VectorModel.Abstract unit := {|
  VectorModel._fit := λ _ _ _, (Ok (), ());
  VectorModel._predict := λ _ _, (Raise (Raised "not implemented"), ())
|}.

(** A concrete classifier that learns nothing and answers its input. *)
Definition EchoClassifier : VectorClassificationModel.Abstract unit := {|
  VectorClassificationModel._fitClassifier := λ _ _ _, (Ok (), ());
  VectorClassificationModel._predict := λ _ x, (Ok x, ());
  VectorClassificationModel._predict_proba := λ _ x, (Ok x, ())
|}.

End Examples.

(** * Further parts of the module *)

(** ** Column selection and further exceptions *)

(** Exceptions of pandas and of the interpreter that the module does not
    raise by name; they are told apart by their tag. *)
Definition KeyError (key : string) : exn := Raised ("KeyError: " +:+ key).
Definition TypeError (msg : string) : exn := Raised ("TypeError: " +:+ msg).
Definition StopIteration : exn := Raised "StopIteration".

(** The cells of one row under the columns called [name]. *)
Definition cells_of (name : string) (cols : list string) (cells : list value)
    : list value :=
  (filter (λ cv, cv.1 = name) (zip cols cells)).*2.

(** [df[name]]: the column called [name] (all of them, when the name is
    used more than once) with the row labels; a KeyError when there is no
    such column. *)
Definition getitem (df : DataFrame) (name : string) : result DataFrame :=
  if bool_decide (name ∈ columns df)
  then Ok {| columns := filter (λ c, c = name) (columns df);
             rows := (λ r, (r.1, cells_of name (columns df) r.2)) <$> rows df |}
  else Raise (KeyError name).

(** ** The statistics classes

    [RegressionEvalStats], [ClassificationEvalStats] and their collections
    come from the module [eval_stats]; this module only constructs them.
    They are taken as given: a type of statistics objects and the
    constructors, which may raise. *)
Class RegressionStatsAPI (E EC : Type) : Type := {
  (* RegressionEvalStats(y_predicted=..., y_true=...) *)
  RegressionEvalStats : DataFrame → DataFrame → result E;
  RegressionEvalStatsCollection : list E → result EC
}.

Class ClassificationStatsAPI (E EC : Type) : Type := {
  (* ClassificationEvalStats(y_predicted_proba=..., y_predicted=...,
                             y_true=..., labels=...) *)
  ClassificationEvalStats :
    DataFrame → DataFrame → DataFrame → option (list string) → result E;
  ClassificationEvalStatsCollection : list E → result EC
}.

(** ** InputOutputData.computeInputOutputCorrelation *)

Module Correlation.
Section WithPearson.
(** [R] stands for the floating point numbers; [pearsonr x y] for
    [scipy.stats.pearsonr(x, y)], which returns the coefficient and the
    p-value or raises. *)
Context {R : Type} (pearsonr : DataFrame → DataFrame → result (R * R)).

(** The inner loop: one entry per input column. *)
Fixpoint inner_loop (inputs : DataFrame) (outputSeries : DataFrame)
    (inputCols : list string) (row : gmap string R) : result (gmap string R) :=
  match inputCols with
  | [] => Ok row
  | inputCol :: inputCols =>
      inputSeries ← getitem inputs inputCol;
      ' (pcc, pvalue) ← pearsonr inputSeries outputSeries;
      inner_loop inputs outputSeries inputCols (<[inputCol := pcc]> row)
  end.

(** The outer loop: one entry per output column, started empty. *)
Fixpoint outer_loop (self : InputOutputData.t) (outputCols : list string)
    (correlations : gmap string (gmap string R))
    : result (gmap string (gmap string R)) :=
  match outputCols with
  | [] => Ok correlations
  | outputCol :: outputCols =>
      outputSeries ← getitem (InputOutputData.outputs self) outputCol;
      row ← inner_loop (InputOutputData.inputs self) outputSeries
              (columns (InputOutputData.inputs self)) ∅;
      outer_loop self outputCols (<[outputCol := row]> correlations)
  end.

(** [InputOutputData.computeInputOutputCorrelation] *)
Definition computeInputOutputCorrelation (self : InputOutputData.t)
    : result (gmap string (gmap string R)) :=
  outer_loop self (columns (InputOutputData.outputs self)) ∅.

End WithPearson.
End Correlation.

(** ** VectorModel.getInputTransformer *)

(** The loop of [getInputTransformer]; [cls] stands for the test
    [isinstance(it, cls)]. *)
Fixpoint first_instance (cls : DataFrameTransformer → bool)
    (its : list DataFrameTransformer) : option DataFrameTransformer :=
  match its with
  | [] => None
  | it :: its => if cls it then Some it else first_instance cls its
  end.

(** [VectorModel.getInputTransformer] *)
Definition getInputTransformer {MS} (self : VectorModel.t MS)
    (cls : DataFrameTransformer → bool) : option DataFrameTransformer :=
  first_instance cls (VectorModel._inputTransformers self).

(** [RuleBasedDataFrameTransformer] as a property of a transformer object:
    its [fit] returns without touching the object. *)
Definition rule_based (t : DataFrameTransformer) : Prop :=
  ∀ df a, tr_fit t df a = (Ok (), a).

(** ** VectorRegressionModelEvaluationData *)

Module VectorRegressionModelEvaluationData.
Section WithStats.
Context {E : Type}.

Record t : Type := mk {
  data : gmap string E
}.

(** [VectorRegressionModelEvaluationData.getEvalStats] *)
Definition getEvalStats (self : t) (predictedVarName : option string)
    : result E :=
  predictedVarName ←
    match predictedVarName with
    | None =>
        if decide (size (data self) ≠ 1%nat)
        then Raise (Exception "Must provide name of predicted variable name, as multiple variables were predicted")
        else
          match (map_to_list (data self)).*1 with
          | key :: _ => Ok key
          | [] => Raise StopIteration
          end
    | Some name => Ok name
    end;
  match data self !! predictedVarName with
  | None => Raise (ValueError "No evaluation data present")
  | Some evalStats => Ok evalStats
  end.

End WithStats.
Arguments t E : clear implicits.
End VectorRegressionModelEvaluationData.

(** ** The evaluators' methods *)

(** [VectorModelEvaluator.fitModel]; the elapsed time it logs is left
    out. *)
Definition fitModel {MS} `{!VectorModel.Abstract MS}
    (self : VectorModelEvaluator.t) : Obj (VectorModel.t MS) unit :=
  VectorModel.fit
    (InputOutputData.inputs (VectorModelEvaluator.trainingData self))
    (InputOutputData.outputs (VectorModelEvaluator.trainingData self)).

Module VectorRegressionModelEvaluator.
Section Methods.
Context {E EC : Type} `{!RegressionStatsAPI E EC}.
Context {P : Type} `{!PredictorModel P}.

(** [VectorRegressionModelEvaluator.computeTestDataOutputs] *)
Definition computeTestDataOutputs (self : VectorModelEvaluator.t)
    : Obj P (DataFrame * DataFrame) :=
  predictions ←
    predict (InputOutputData.inputs (VectorModelEvaluator.testData self));
  let groundTruth :=
    InputOutputData.outputs (VectorModelEvaluator.testData self) in
  mret (predictions, groundTruth).

(** The loop of [evalModel] over the predicted variable names. *)
Fixpoint stats_loop (predictions groundTruth : DataFrame)
    (names : list string) (statsDict : gmap string E) : result (gmap string E) :=
  match names with
  | [] => Ok statsDict
  | predictedVarName :: names =>
      y_predicted ← getitem predictions predictedVarName;
      y_true ← getitem groundTruth predictedVarName;
      evalStats ← RegressionEvalStats y_predicted y_true;
      stats_loop predictions groundTruth names
        (<[predictedVarName := evalStats]> statsDict)
  end.

(** [VectorRegressionModelEvaluator.evalModel] *)
Definition evalModel (self : VectorModelEvaluator.t)
    : Obj P (VectorRegressionModelEvaluationData.t E) :=
  ' (predictions, groundTruth) ← computeTestDataOutputs self;
  names ← gets getPredictedVariableNames;
  match names with
  | None => raise (TypeError "'NoneType' object is not iterable")
  | Some names =>
      statsDict ← lift (stats_loop predictions groundTruth names ∅);
      mret (VectorRegressionModelEvaluationData.mk statsDict)
  end.

End Methods.
End VectorRegressionModelEvaluator.

(** ** VectorClassificationModelEvaluator *)

Module VectorClassificationModelEvaluationData.
Record t (E : Type) : Type := mk { evalStats : E }.
Arguments mk {E}.
Arguments evalStats {E}.
Definition getEvalStats {E} (self : t E) : E := evalStats self.
End VectorClassificationModelEvaluationData.

Module VectorClassificationModelEvaluator.
Section Methods.
Context {G : Type} `{!RandomStateAPI G}.
Context {E EC : Type} `{!ClassificationStatsAPI E EC}.
Context {CS : Type} `{!VectorClassificationModel.Abstract CS}.

Record t : Type := mk {
  base : VectorModelEvaluator.t;
  labels : option (list string)
}.

(** [VectorClassificationModelEvaluator.__init__] *)
Definition __init__ (data : InputOutputData.t) (labels : option (list string))
    (testFraction : option Q) (testData : option InputOutputData.t)
    (randomSeed : Z) : result t :=
  base ← VectorModelEvaluator.__init__ data testFraction testData randomSeed;
  Ok {| base := base; labels := labels |}.

(** [VectorClassificationModelEvaluator.computeTestDataOutputs] *)
Definition computeTestDataOutputs (self : t)
    : Obj (VectorClassificationModel.t CS) (DataFrame * DataFrame * DataFrame) :=
  let testData := VectorModelEvaluator.testData (base self) in
  predictions ← VectorModel.predict (InputOutputData.inputs testData);
  predictions_proba ←
    VectorClassificationModel.predict_proba (InputOutputData.inputs testData);
  let groundTruth := InputOutputData.outputs testData in
  mret (predictions, predictions_proba, groundTruth).

(** [VectorClassificationModelEvaluator.evalModel] *)
Definition evalModel (self : t)
    : Obj (VectorClassificationModel.t CS)
          (VectorClassificationModelEvaluationData.t E) :=
  ' (predictions, predictions_proba, groundTruth) ← computeTestDataOutputs self;
  evalStats ← lift (ClassificationEvalStats predictions_proba predictions
                      groundTruth (labels self));
  mret (VectorClassificationModelEvaluationData.mk evalStats).

End Methods.
End VectorClassificationModelEvaluator.

(** ** Cross validation: evaluating a model *)

(** [VectorModelCrossValidator._evalModel]; [evalModel] stands for the
    [evalModel] method of the evaluators the cross validator created.
    [copy.deepcopy(model)] is the value of the model itself: the loop
    never works on the model it was given. *)
Fixpoint _evalModel {MS D} `{!VectorModel.Abstract MS}
    (evalModel : VectorModelEvaluator.t → Obj (VectorModel.t MS) D)
    (modelEvaluators : list VectorModelEvaluator.t) (model : VectorModel.t MS)
    (trainedModels : list (VectorModel.t MS)) (evalDataList : list D)
    (testIndicesList : list (list value))
    : result (list (VectorModel.t MS) * list D * list (list value)) :=
  match modelEvaluators with
  | [] => Ok (trainedModels, evalDataList, testIndicesList)
  | evaluator :: modelEvaluators =>
      let modelCopy := model in
      match fitModel evaluator modelCopy with
      | (Raise e, _) => Raise e
      | (Ok _, modelCopy) =>
          match evalModel evaluator modelCopy with
          | (Raise e, _) => Raise e
          | (Ok evalData, modelCopy) =>
              _evalModel evalModel modelEvaluators model
                (trainedModels ++ [modelCopy])
                (evalDataList ++ [evalData])
                (testIndicesList ++
                   [df_index (InputOutputData.outputs
                                (VectorModelEvaluator.testData evaluator))])
          end
      end
  end.

Module VectorRegressionModelCrossValidationData.
Section WithStats.
Context {E EC : Type} `{!RegressionStatsAPI E EC} {M : Type}.

Record t : Type := mk {
  predictedVarNames : option (list string);
  trainedModels : list M;
  evalDataList : list (VectorRegressionModelEvaluationData.t E);
  testIndicesList : list (list value)
}.

(** [VectorRegressionModelCrossValidationData.getEvalStatsCollection] *)
Definition getEvalStatsCollection (self : t) (predictedVarName : option string)
    : result EC :=
  predictedVarName ←
    match predictedVarName with
    | None =>
        match predictedVarNames self with
        | None => Raise (TypeError "object of type 'NoneType' has no len()")
        | Some names =>
            if decide (length names ≠ 1%nat)
            then Raise (Exception "Must provide name of predicted variable")
            else
              match names with
              | name :: _ => Ok name
              | [] => Raise (IndexError "list index out of range")
              end
        end
    | Some name => Ok name
    end;
  evalStatsList ←
    mapM (λ evalData,
            VectorRegressionModelEvaluationData.getEvalStats evalData
              (Some predictedVarName))
         (evalDataList self);
  RegressionEvalStatsCollection evalStatsList.

End WithStats.
Arguments t E M : clear implicits.
End VectorRegressionModelCrossValidationData.

Module VectorRegressionModelCrossValidator.
Section Methods.
Context {E EC : Type} `{!RegressionStatsAPI E EC}.
Context {MS : Type} `{!VectorModel.Abstract MS}.

(** [VectorRegressionModelCrossValidator.evalModel] *)
Definition evalModel (self : VectorModelCrossValidator.t)
    (model : VectorModel.t MS)
    : result (VectorRegressionModelCrossValidationData.t E (VectorModel.t MS)) :=
  ' (trainedModels, evalDataList, testIndicesList) ←
    _evalModel VectorRegressionModelEvaluator.evalModel
      (VectorModelCrossValidator.modelEvaluators self) model [] [] [];
  predictedVarNames ←
    match trainedModels with
    | first :: _ => Ok (VectorModel.getPredictedVariableNames first)
    | [] => Raise (IndexError "list index out of range")
    end;
  Ok (VectorRegressionModelCrossValidationData.mk predictedVarNames
        trainedModels evalDataList testIndicesList).

End Methods.
End VectorRegressionModelCrossValidator.

(** ** Concrete objects for the further examples *)

Module MoreExamples.

(** Statistics that keep the two columns they were computed from. *)
Definition PairStats : RegressionStatsAPI (DataFrame * DataFrame)
                                          (list (DataFrame * DataFrame)) := {|
  RegressionEvalStats := λ y_predicted y_true, Ok (y_predicted, y_true);
  RegressionEvalStatsCollection := λ l, Ok l
|}.

(** A frame with a column name used twice. *)
Definition XY : DataFrame :=
  Examples.frame ["x"; "y"; "x"]
    [[VInt 1; VInt 2; VInt 3]; [VInt 4; VInt 5; VInt 6]].

(** Two output columns for the five rows of the examples. *)
Definition Y5ab : DataFrame :=
  Examples.frame ["a"; "b"]
    [[VInt 1; VInt 0]; [VInt 2; VInt 0]; [VInt 3; VInt 0];
     [VInt 4; VInt 0]; [VInt 5; VInt 0]].

Definition data5ab : InputOutputData.t :=
  {| InputOutputData.inputs := Examples.X5; InputOutputData.outputs := Y5ab |}.

(** One output column, called like the first input column. *)
Definition Y5a : DataFrame :=
  Examples.frame ["a"]
    [[VInt 1]; [VInt 2]; [VInt 3]; [VInt 4]; [VInt 5]].

Definition data5a : InputOutputData.t :=
  {| InputOutputData.inputs := Examples.X5; InputOutputData.outputs := Y5a |}.

(** A predictor that counts its calls in its state and adds the count to
    no cell: it returns its input. *)
Definition Counting : PredictorModel nat := {|
  predict := λ x n, (Ok x, S n);
  getPredictedVariableNames := λ _, Some ["a"; "b"]
|}.

(** A stateless predictor that returns its input and predicts the
    variable [a]. *)
Definition IdentityA : PredictorModel unit := {|
  predict := λ x, mret x;
  getPredictedVariableNames := λ _, Some ["a"]
|}.

(** A concrete model whose training routine raises. *)
Definition Untrainable : VectorModel.Abstract unit := {|
  VectorModel._fit := λ _ _ _, (Raise (Raised "did not converge"), ());
  VectorModel._predict := λ _ x, (Ok x, ())
|}.

(** An evaluator that was given its test data. *)
Definition evaluator5a : VectorModelEvaluator.t := {|
  VectorModelEvaluator.testFraction := None;
  VectorModelEvaluator.trainingData := data5a;
  VectorModelEvaluator.testData := data5a
|}.

(** A transformer whose [fit] raises. *)
Definition failing_transformer : DataFrameTransformer := {|
  tr_self := ();
  tr_fit := λ _ a, (Raise (Raised "cannot fit"), a);
  tr_apply := λ _ df, Ok df
|}.

(** A coefficient that records which columns it was computed from. *)
Definition pearsonr_names (x y : DataFrame)
    : result ((list string * list string) * (list string * list string)) :=
  Ok ((columns x, columns y), ([], [])).

End MoreExamples.

(** ** Predicates of the further statements *)

(** The row position a valid positional index stands for. *)
Definition position (n : nat) (i : Z) : nat :=
  Z.to_nat (if i <? 0 then i + Z.of_nat n else i).

(** A positional index outside [-n, n). *)
Definition out_of_bounds (n : nat) (i : Z) : Prop :=
  i < - Z.of_nat n ∨ Z.of_nat n ≤ i.

(** The positions of the first selection that a second selection picks. *)
Definition compose_indices (first second : list Z) : list Z :=
  (λ j, default 0 (first !! position (length first) j)) <$> second.

(** A run of [fit] in which a transformer raised [e]: one of the input
    pipeline, or, after the input pipeline went through, one of the
    training-output pipeline. *)
Definition transformer_failed {MS} (self : VectorModel.t MS)
    (X Y : DataFrame) (e : exn) : Prop :=
  (VectorModel._applyTransformers X true (VectorModel._inputTransformers self)).1
    = Raise e ∨
  ((∃ X', (VectorModel._applyTransformers X true
             (VectorModel._inputTransformers self)).1 = Ok X') ∧
   (VectorModel._applyTransformers Y true
      (VectorModel._trainingOutputTransformers self)).1 = Raise e).

(** A loop that fills a dictionary: for each name in turn the value
    [f name] is computed and stored under the name; the first exception
    ends the loop. The loops over column names in this module have this
    shape. *)
Fixpoint fill {V} (f : string → result V) (names : list string)
    (dict : gmap string V) : result (gmap string V) :=
  match names with
  | [] => Ok dict
  | name :: names => v ← f name; fill f names (<[name := v]> dict)
  end.

(** The statistics [evalModel] computes for one predicted variable. *)
Definition variable_stats {E EC} `{!RegressionStatsAPI E EC}
    (predictions groundTruth : DataFrame) (name : string) : result E :=
  y_predicted ← getitem predictions name;
  y_true ← getitem groundTruth name;
  RegressionEvalStats y_predicted y_true.

(** One round of the loop of [_evalModel] on the model as given: fitted
    on the evaluator's training data, then evaluated. *)
Definition fold_run {MS D} `{!VectorModel.Abstract MS}
    (evalModel : VectorModelEvaluator.t → Obj (VectorModel.t MS) D)
    (model : VectorModel.t MS) (ev : VectorModelEvaluator.t)
    (trained : VectorModel.t MS) (evalData : D) : Prop :=
  ∃ fitted, fitModel ev model = (Ok (), fitted) ∧
            evalModel ev fitted = (Ok evalData, trained).

(** The coefficient [computeInputOutputCorrelation] computes for one pair
    of an output column and an input column. *)
Definition coefficient {R} (pearsonr : DataFrame → DataFrame → result (R * R))
    (self : InputOutputData.t) (outputCol inputCol : string) : result R :=
  outputSeries ← getitem (InputOutputData.outputs self) outputCol;
  inputSeries ← getitem (InputOutputData.inputs self) inputCol;
  ' (pcc, pvalue) ← pearsonr inputSeries outputSeries;
  Ok pcc.

(** * Properties *)

(** ** Results and sequences *)

Lemma bind_Ok {A B} (r : result A) (k : A → result B) (b : B) :
  (r ≫= k) = Ok b → ∃ a, r = Ok a ∧ k a = Ok b.
Proof. destruct r as [a|e]; [by exists a | done]. Qed.

Lemma mapM_Ok_Forall2 {A B} (f : A → result B) (l : list A) (l' : list B) :
  mapM f l = Ok l' ↔ Forall2 (λ x y, f x = Ok y) l l'.
Proof.
  revert l'. induction l as [|x l IH]; intros l'; simpl.
  - split; [intros [= <-]; constructor | by inversion 1].
  - split.
    + intros (y & Hy & H)%bind_Ok. apply bind_Ok in H as (ys & Hys & [= <-]).
      constructor; [done | by apply IH].
    + inversion 1 as [|? y ? ys Hy Hys]; subst.
      apply IH in Hys. unfold mbind, result_bind at 1. rewrite Hy.
      unfold mbind, result_bind at 1. by rewrite Hys.
Qed.

Lemma mapM_Ok_length {A B} (f : A → result B) (l : list A) (l' : list B) :
  mapM f l = Ok l' → length l' = length l.
Proof. intros H%mapM_Ok_Forall2. symmetry. by eapply Forall2_length. Qed.


Lemma slice_bound_nonneg (n : nat) (i : Z) :
  0 ≤ i → slice_bound n i = (Z.to_nat i `min` n)%nat.
Proof. intros Hi. unfold slice_bound. case_match; lia. Qed.

(** ** Row selection *)

Lemma iloc_row_Ok (df : DataFrame) (i : nat) :
  (i < len df)%nat → ∃ r, rows df !! i = Some r ∧ iloc_row df (Z.of_nat i) = Ok r.
Proof.
  intros Hi. unfold iloc_row.
  destruct (lookup_lt_is_Some_2 (rows df) i Hi) as [r Hr].
  exists r. split; [done |].
  replace (_ || _) with false by (symmetry; apply orb_false_iff; lia).
  replace (Z.of_nat i <? 0) with false by lia.
  by rewrite Nat2Z.id, Hr.
Qed.

Lemma iloc_Ok_len (df df' : DataFrame) (indices : list Z) :
  iloc df indices = Ok df' → len df' = length indices ∧ columns df' = columns df.
Proof.
  unfold iloc. intros (rs & Hrs & [= <-])%bind_Ok. split; [|done].
  unfold len; simpl. by eapply mapM_Ok_length.
Qed.

Lemma iloc_Ok_rows (df df' : DataFrame) (indices : list nat) :
  iloc df (Z.of_nat <$> indices) = Ok df' →
  Forall2 (λ i r, rows df !! i = Some r) indices (rows df').
Proof.
  unfold iloc. intros (rs & Hrs & [= <-])%bind_Ok. simpl.
  apply mapM_Ok_Forall2 in Hrs. apply Forall2_fmap_l in Hrs.
  eapply Forall2_impl; [done |]. intros i r. simpl. unfold iloc_row.
  replace (Z.of_nat i <? 0) with false by (symmetry; apply Z.ltb_ge; lia).
  case_match; [done |]. rewrite Nat2Z.id.
  destruct (rows df !! i); naive_solver.
Qed.


(** ** InputOutputData: the alignment invariant *)

Section InputOutputDataProperties.
Import InputOutputData.

Lemma init_Ok (inputs outputs : DataFrame) (d : InputOutputData.t) :
  __init__ inputs outputs = Ok d ↔
  len inputs = len outputs ∧ d = InputOutputData.mk inputs outputs.
Proof.
  unfold __init__. case_decide.
  - split; [done | by intros [? _]].
  - split; [intros [= <-]; split; [lia | done] | by intros [_ ->]].
Qed.

Lemma filterIndices_Ok (d d' : InputOutputData.t) (indices : list Z) :
  filterIndices d indices = Ok d' →
  iloc (inputs d) indices = Ok (inputs d') ∧
  iloc (outputs d) indices = Ok (outputs d') ∧
  aligned d' ∧ __len__ d' = length indices.
Proof.
  unfold filterIndices.
  intros (i' & Hi & (o' & Ho & [Hlen ->]%init_Ok)%bind_Ok)%bind_Ok.
  simpl. repeat split; try done.
  unfold __len__; simpl. by apply iloc_Ok_len in Hi as [-> _].
Qed.


Lemma instance_is_aligned (d : InputOutputData.t) : instance d → aligned d.
Proof.
  induction 1 as [i o d [? ->]%init_Ok | d idx d' _ _ H]; [done |].
  by apply filterIndices_Ok in H as (_ & _ & ? & _).
Qed.

(** C10: every InputOutputData instance, whether it comes from the
    constructor or from filterIndices on an instance, has as many input
    rows as output rows, so its length is the row count of either frame. *)
Theorem instance_aligned (d : InputOutputData.t) :
  instance d →
  len (inputs d) = len (outputs d) ∧
  __len__ d = len (inputs d) ∧ __len__ d = len (outputs d).
Proof.
  intros Ha%instance_is_aligned. unfold aligned, __len__ in *. by rewrite Ha.
Qed.

(** The constructor accepts the frames of the example, and a filtered
    copy of the instance satisfies the invariant. *)
Lemma instance_aligned_witness :
  ∃ d, filterIndices Examples.data5 [3; 0; -1] = Ok d ∧
       len (inputs d) = len (outputs d) ∧
       __len__ d = len (inputs d) ∧ __len__ d = len (outputs d).
Proof.
  eexists. split; [reflexivity |].
  apply instance_aligned.
  apply (instance_filter Examples.data5 [3; 0; -1]); [|reflexivity].
  by apply (instance_init Examples.X5 Examples.Y5).
Defined.

End InputOutputDataProperties.

(** ** Numbers *)




(** ** Permutations of a range *)


Lemma permuted_range_facts (l : list nat) (n : nat) :
  l ≡ₚ seq 0 n →
  NoDup l ∧ length l = n ∧ Forall (λ i, i < n)%nat l.
Proof.
  intros Hl. split; [|split].
  - rewrite Hl. apply NoDup_seq.
  - by rewrite Hl, length_seq.
  - rewrite Hl. apply Forall_forall. intros i Hi%elem_of_seq. lia.
Qed.


(** ** The example objects *)

Lemma rotate_Permutation {A} (k : nat) (l : list A) : rotate k l ≡ₚ l.
Proof. unfold rotate. rewrite (comm (++)). by rewrite take_drop. Qed.

Lemma rotating_generator_permutes : @permutes_range Z Examples.rotating_generator.
Proof. intros n g. simpl. apply rotate_Permutation. Qed.

Lemma data5_instance : instance Examples.data5.
Proof. by apply (instance_init Examples.X5 Examples.Y5). Qed.

(** ** VectorModelEvaluator: the split *)

Section EvaluatorProperties.
Context {G : Type} `{!RandomStateAPI G}.
Hypothesis Hpermutes : permutes_range.
Import InputOutputData VectorModelEvaluator.





End EvaluatorProperties.



(** ** VectorModelCrossValidator: the folds *)

Section CrossValidatorProperties.
Context {G : Type} `{!RandomStateAPI G}.
Hypothesis Hpermutes : permutes_range.
Import InputOutputData VectorModelCrossValidator.

(** Fold [i] of [K] on a permutation of [n] indices: the test block is
    the [i]-th block of [n / K] positions, the training indices are all
    the other positions. *)
Lemma fold_indices_blocks (perm : list nat) (folds i : Z) :
  0 ≤ i < folds →
  let t := Z.to_nat (Z.of_nat (length perm) `div` folds) in
  fold_indices perm (Z.of_nat (length perm) `div` folds) i
  = (take (Z.to_nat i * t) perm ++ drop (Z.to_nat i * t + t) perm,
     take t (drop (Z.to_nat i * t) perm)) ∧
  (Z.to_nat i * t + t ≤ Z.to_nat folds * t ≤ length perm)%nat.
Proof.
  intros Hi. set (n := length perm). simpl.
  assert (0 ≤ Z.of_nat n `div` folds) as Ht by (apply Z.div_pos; lia).
  assert (folds * (Z.of_nat n `div` folds) ≤ Z.of_nat n) as Hn
    by (apply Z.mul_div_le; lia).
  set (t := Z.of_nat n `div` folds) in *.
  assert (i * t + t ≤ folds * t) as Hit by nia.
  split; [|nia].
  unfold fold_indices, slice, slice_to, slice_from. fold n.
  rewrite !slice_bound_nonneg by nia.
  replace (Z.to_nat (i * t) `min` n)%nat with (Z.to_nat i * Z.to_nat t)%nat by nia.
  replace (Z.to_nat (i * t + t) `min` n)%nat
    with (Z.to_nat i * Z.to_nat t + Z.to_nat t)%nat by nia.
  do 3 f_equal. lia.
Qed.


Lemma crossvalidator_init_Ok (data : InputOutputData.t) (folds seed : Z)
    (cv : VectorModelCrossValidator.t) :
  VectorModelCrossValidator.__init__ data folds seed = Ok cv →
  ∃ idx, folds_indices (__len__ data) folds seed = Ok idx ∧
         Forall2 (built_from data) idx (modelEvaluators cv).
Proof.
  unfold VectorModelCrossValidator.__init__, folds_indices.
  intros (t & -> & (evs & Hevs & [= <-])%bind_Ok)%bind_Ok.
  eexists. split; [done |]. simpl.
  apply mapM_Ok_Forall2 in Hevs. apply Forall2_fmap_l.
  eapply Forall2_impl; [done |]. intros i ev. unfold built_from, compose. cbn beta.
  destruct (fold_indices _ _ _) as [train test]. cbn [fst snd].
  intros (dtr & Hdtr & (dte & Hdte & Hev)%bind_Ok)%bind_Ok.
  unfold _createModelEvaluator, VectorModelEvaluator.__init__ in Hev.
  rewrite !bool_decide_eq_false_2 in Hev by (by intros [? ?]).
  injection Hev as <-. by split.
Qed.




End CrossValidatorProperties.



(** ** Determinism of the splits *)



(** ** VectorModel: fitting and predicting *)

Section VectorModelProperties.
Context {MS : Type} `{!VectorModel.Abstract MS}.
Import VectorModel.

Lemma applyTransformers_apply_only (df : DataFrame)
    (transformers : list DataFrameTransformer) :
  (_applyTransformers df false transformers).2 = transformers.
Proof.
  revert df. induction transformers as [|t ts IH]; intros df; [done |].
  simpl. run_method. unfold transformer_apply.
  destruct (tr_apply t (tr_self t) df) as [df'|e]; [|done].
  specialize (IH df'). destruct (_applyTransformers df' false ts) as [r ts'].
  simpl in *. by rewrite IH.
Qed.

Lemma set_inputTransformers_same (self : VectorModel.t MS) :
  set_inputTransformers (_inputTransformers self) self = self.
Proof. by destruct self. Qed.

Lemma set_outputTransformers_same (self : VectorModel.t MS) :
  set_outputTransformers (_outputTransformers self) self = self.
Proof. by destruct self. Qed.

(** What a run of [fit] leaves in the object, step by step. *)
Lemma fit_Ok (X Y : DataFrame) (self self' : VectorModel.t MS) :
  fit X Y self = (Ok (), self') →
  ∃ X' its Y' tots o,
    _applyTransformers X true (_inputTransformers self) = (Ok X', its) ∧
    _applyTransformers Y true (_trainingOutputTransformers self) = (Ok Y', tots) ∧
    _fit (mk its (_outputTransformers self) tots (Some (columns Y))
            (Some (columns X')) (Some (columns Y')) (own self)) X' Y'
      = (Ok (), o) ∧
    self' = mk its (_outputTransformers self) tots (Some (columns Y))
               (Some (columns X')) (Some (columns Y')) o.
Proof.
  unfold fit, _applyInputTransformers, call_fit. run_method.
  unfold set_predictedVariableNames, set_inputTransformers,
    set_trainingOutputTransformers, set_modelInputVariableNames,
    set_modelOutputVariableNames, set_own. cbn.
  destruct (_applyTransformers X true _) as [[X'|e] its]; [|done].
  destruct (_applyTransformers Y true _) as [[Y'|e] tots]; [|done].
  destruct (_fit _ X' Y') as [[[]|e] o] eqn:Hfit; [|done].
  intros [= <-]. by exists X', its, Y', tots, o.
Qed.

(** C4, as the code has it: after [fit(X, Y)] the predicted variable
    names are the columns of [Y] as it was passed in, before the
    training-output transformers; the columns after that transformation
    are what getModelOutputVariableNames returns. *)
Theorem fit_records_given_output_names (X Y : DataFrame)
    (self self' : VectorModel.t MS) :
  fit X Y self = (Ok (), self') →
  getPredictedVariableNames self' = Some (columns Y) ∧
  ∃ Y' tots,
    _applyTransformers Y true (_trainingOutputTransformers self) = (Ok Y', tots) ∧
    getModelOutputVariableNames self' = Some (columns Y').
Proof.
  intros (X' & its & Y' & tots & o & _ & HY & _ & ->)%fit_Ok.
  split; [done |]. by exists Y', tots.
Qed.

(** The input check of [predict], case by case on what the input
    transformers return and on what was recorded. *)
Lemma checkAndTransformInputs_cases (x : DataFrame) (self : VectorModel.t MS) :
  _checkAndTransformInputs x self =
  match (_applyTransformers x false (_inputTransformers self)).1 with
  | Raise e => (Raise e, self)
  | Ok x' =>
      if bool_decide (_predictedVariableNames self = None)
      then (Raise (Exception "Cannot obtain predictions from non-trained model"), self)
      else if bool_decide (Some (columns x') ≠ _modelInputVariableNames self)
      then (Raise (Exception "Inadmissible input data frame"), self)
      else (Ok x', self)
  end.
Proof.
  unfold _checkAndTransformInputs, _applyInputTransformers. run_method.
  pose proof (applyTransformers_apply_only x (_inputTransformers self)) as Hsame.
  destruct (_applyTransformers x false _) as [[x'|e] its]; simpl in *; subst its;
    rewrite set_inputTransformers_same; [|done].
  unfold getPredictedVariableNames. by repeat case_bool_decide.
Qed.

Lemma predict_check_raises (x : DataFrame) (self : VectorModel.t MS) :
  raises (_checkAndTransformInputs x self).1 → raises (predict x self).1.
Proof.
  unfold predict. run_method.
  destruct (_checkAndTransformInputs x self) as [[x'|e] s]; simpl.
  - by intros [? ?].
  - by eauto.
Qed.

(** C6, as the code has it: [predict] on a model that was never fitted
    raises; after [fit(X, Y)], on a frame whose transformed column list
    is the recorded one the input check passes and [predict] returns
    whenever the model's own routine returns as many rows as it was given
    and the output transformers return; on a frame whose transformed
    column list differs in names or order [predict] raises. *)
Theorem predict_checks_columns (X Y x x' : DataFrame)
    (inputTransformers outputTransformers trainingOutputTransformers
       : list DataFrameTransformer) (own : MS)
    (self self' : VectorModel.t MS) :
  fit X Y self = (Ok (), self') →
  (_applyTransformers x false (_inputTransformers self')).1 = Ok x' →
  raises (predict x (__init__ inputTransformers outputTransformers
                       trainingOutputTransformers own)).1 ∧
  (Some (columns x') = _modelInputVariableNames self' →
     _checkAndTransformInputs x self' = (Ok x', self') ∧
     ∀ y0 o y1 y,
       _predict self' x' = (Ok y0, o) →
       set_index y0 (df_index x') = Ok y1 →
       (_applyTransformers y1 false (_outputTransformers self')).1 = Ok y →
       predict x self' = (Ok y, set_own o self')) ∧
  (Some (columns x') ≠ _modelInputVariableNames self' →
     raises (predict x self').1).
Proof.
  intros Hfit Hx'. split; [|split].
  - apply predict_check_raises. rewrite checkAndTransformInputs_cases.
    simpl. destruct (_applyTransformers x false inputTransformers).1; by eexists.
  - intros Hcols.
    assert (_checkAndTransformInputs x self' = (Ok x', self')) as Hcheck.
    { rewrite checkAndTransformInputs_cases, Hx'.
      apply fit_Ok in Hfit as (? & ? & ? & ? & ? & _ & _ & _ & ->).
      rewrite bool_decide_eq_false_2 by done.
      by rewrite bool_decide_eq_false_2 by (by intros ?). }
    split; [done |]. intros y0 o y1 y Hy0 Hy1 Hy.
    unfold predict. run_method. rewrite Hcheck. unfold call_predict.
    rewrite Hy0, Hy1. cbn [_outputTransformers set_own].
    pose proof (applyTransformers_apply_only y1 (_outputTransformers self')) as Hsame.
    destruct (_applyTransformers y1 false _) as [r ots]; simpl in *; subst.
    reflexivity.
  - intros Hcols. apply predict_check_raises.
    rewrite checkAndTransformInputs_cases, Hx'.
    case_bool_decide; [by eexists |].
    rewrite bool_decide_eq_true_2 by done. by eexists.
Qed.

End VectorModelProperties.

(** C4 in the words of the claim does not hold: with a training-output
    transformer that renames the column [class] to [class_scaled], the
    predicted variable names after [fit] are still [class]. *)
Lemma predicted_names_counterexample :
  let model := @VectorModel.__init__ unit [] []
                 [Examples.rename_columns "_scaled"] () in
  ∃ self' Y' tots,
    @VectorModel.fit unit Examples.Echo Examples.X5 Examples.Y5 model
      = (Ok (), self') ∧
    VectorModel._applyTransformers Examples.Y5 true
      (VectorModel._trainingOutputTransformers model) = (Ok Y', tots) ∧
    columns Examples.Y5 = ["class"] ∧
    columns Y' = ["class_scaled"] ∧
    VectorModel.getPredictedVariableNames self' = Some ["class"] ∧
    VectorModel.getPredictedVariableNames self' ≠ Some (columns Y').
Proof. simpl. do 3 eexists. repeat split; try reflexivity. by vm_compute. Qed.

Lemma fit_records_given_output_names_witness :
  let model := @VectorModel.__init__ unit [] []
                 [Examples.rename_columns "_scaled"] () in
  ∃ self',
    @VectorModel.fit unit Examples.Echo Examples.X5 Examples.Y5 model
      = (Ok (), self') ∧
    VectorModel.getPredictedVariableNames self' = Some (columns Examples.Y5) ∧
    ∃ Y' tots,
      VectorModel._applyTransformers Examples.Y5 true
        (VectorModel._trainingOutputTransformers model) = (Ok Y', tots) ∧
      VectorModel.getModelOutputVariableNames self' = Some (columns Y').
Proof.
  eexists. split; [reflexivity |].
  apply (@fit_records_given_output_names unit Examples.Echo
           Examples.X5 Examples.Y5
           (VectorModel.__init__ [] [] [Examples.rename_columns "_scaled"] ())).
  reflexivity.
Defined.

(** C6 in the words of the claim does not hold: a fitted model whose own
    prediction routine raises makes [predict] raise on a frame with
    exactly the recorded columns. *)
Lemma predict_succeeds_counterexample :
  let model := @VectorModel.__init__ unit [] [] [] () in
  ∃ self',
    @VectorModel.fit unit Examples.Broken Examples.X5 Examples.Y5 model
      = (Ok (), self') ∧
    (VectorModel._applyTransformers Examples.X5 false
       (VectorModel._inputTransformers self')).1 = Ok Examples.X5 ∧
    Some (columns Examples.X5) = VectorModel._modelInputVariableNames self' ∧
    @VectorModel.predict unit Examples.Broken Examples.X5 self'
      = (Raise (Raised "not implemented"), self').
Proof. simpl. eexists. repeat split; reflexivity. Qed.

Lemma predict_checks_columns_witness :
  let model := @VectorModel.__init__ unit [] [] [] () in
  ∃ self',
    @VectorModel.fit unit Examples.Echo Examples.X5 Examples.Y5 model
      = (Ok (), self') ∧
    (VectorModel._applyTransformers Examples.X5 false
       (VectorModel._inputTransformers self')).1 = Ok Examples.X5 ∧
    raises (@VectorModel.predict unit Examples.Echo Examples.X5 model).1 ∧
    (Some (columns Examples.X5) = VectorModel._modelInputVariableNames self' →
       @VectorModel._checkAndTransformInputs unit Examples.X5 self'
         = (Ok Examples.X5, self') ∧
       ∀ y0 o y1 y,
         @VectorModel._predict unit Examples.Echo self' Examples.X5 = (Ok y0, o) →
         set_index y0 (df_index Examples.X5) = Ok y1 →
         (VectorModel._applyTransformers y1 false
            (VectorModel._outputTransformers self')).1 = Ok y →
         @VectorModel.predict unit Examples.Echo Examples.X5 self'
           = (Ok y, VectorModel.set_own o self')) ∧
    (Some (columns Examples.X5) ≠ VectorModel._modelInputVariableNames self' →
       raises (@VectorModel.predict unit Examples.Echo Examples.X5 self').1).
Proof.
  eexists. split; [reflexivity |]. split; [reflexivity |].
  apply (@predict_checks_columns unit Examples.Echo
           Examples.X5 Examples.Y5 Examples.X5 Examples.X5 [] [] [] ()
           (VectorModel.__init__ [] [] [] ())); reflexivity.
Defined.

(** ** VectorClassificationModel: the labels *)

Lemma unique_from_seen_equiv (seen1 seen2 l : list value) :
  (∀ v, v ∈ seen1 ↔ v ∈ seen2) → unique_from seen1 l = unique_from seen2 l.
Proof.
  revert seen1 seen2. induction l as [|v l IH]; intros seen1 seen2 Hseen; [done |].
  simpl. rewrite (bool_decide_ext _ _ (Hseen v)).
  case_bool_decide; [by apply IH |].
  f_equal. apply IH. intros w. rewrite !elem_of_cons. naive_solver.
Qed.

Lemma unique_from_cons_seen (x : value) (seen l : list value) :
  unique_from (x :: seen) l = unique_from seen (filter (λ v, v ≠ x) l).
Proof.
  revert seen. induction l as [|v l IH]; intros seen; [done |].
  cbn [unique_from]. destruct (decide (v = x)) as [->|Hne].
  - rewrite bool_decide_eq_true_2 by left.
    rewrite filter_cons_False by naive_solver. apply IH.
  - rewrite filter_cons_True by done. cbn [unique_from].
    assert (bool_decide (v ∈ x :: seen) = bool_decide (v ∈ seen)) as ->
      by (apply bool_decide_ext; rewrite elem_of_cons; naive_solver).
    case_bool_decide; [apply IH |].
    f_equal. rewrite <- IH. apply unique_from_seen_equiv.
    intros w. rewrite !elem_of_cons. naive_solver.
Qed.

(** [unique] keeps the first occurrence of every value, in order. *)
Lemma unique_cons (x : value) (l : list value) :
  unique (x :: l) = x :: unique (filter (λ v, v ≠ x) l).
Proof.
  unfold unique. cbn [unique_from].
  rewrite bool_decide_eq_false_2 by apply not_elem_of_nil.
  f_equal. apply unique_from_cons_seen.
Qed.

Lemma unique_from_elem_of (seen l : list value) (v : value) :
  v ∈ unique_from seen l ↔ v ∈ l ∧ v ∉ seen.
Proof.
  revert seen. induction l as [|w l IH]; intros seen; simpl.
  - rewrite elem_of_nil. naive_solver.
  - case_bool_decide as Hw.
    + rewrite IH, elem_of_cons. naive_solver.
    + rewrite !elem_of_cons, IH, elem_of_cons.
      destruct (decide (v = w)); naive_solver.
Qed.

Lemma unique_from_NoDup (seen l : list value) : NoDup (unique_from seen l).
Proof.
  revert seen. induction l as [|w l IH]; intros seen; simpl; [constructor |].
  case_bool_decide; [apply IH |].
  constructor; [|apply IH].
  rewrite unique_from_elem_of, elem_of_cons. naive_solver.
Qed.

Lemma unique_distinct_values (l : list value) :
  NoDup (unique l) ∧ ∀ v, v ∈ unique l ↔ v ∈ l.
Proof.
  split; [apply unique_from_NoDup |].
  intros v. unfold unique. rewrite unique_from_elem_of, elem_of_nil. naive_solver.
Qed.

(** Distinct values can share their string: the labels of a column that
    holds the integer 1 and the string "1" repeat. *)
Example labels_of_mixed_column :
  str <$> unique [VInt 1; VStr "1"; VInt 1] = ["1"; "1"].
Proof. reflexivity. Qed.

Section ClassificationProperties.
Context {CS : Type} `{!VectorClassificationModel.Abstract CS}.
Import VectorModel VectorClassificationModel.

(** C3, as the code has it: a successful [fit(X, Y)] of a classification
    model records as labels the strings of the distinct values of [Y]'s
    first column in their order of first appearance, and the classifier's
    own fit routine is run on the object that already holds them. *)
Theorem fit_records_labels_in_order_of_appearance (X Y : DataFrame)
    (self self' : VectorClassificationModel.t CS) :
  _trainingOutputTransformers self = [] →
  VectorModel.fit X Y self = (Ok (), self') →
  ∃ column X' before,
    iloc_column0 Y = Ok column ∧
    _labels (own self') = Some (str <$> unique column) ∧
    _labels (own before) = Some (str <$> unique column) ∧
    _fitClassifier before X' Y = (Ok (), classifier (own self')).
Proof.
  intros Htots (X' & its & Y' & tots & o & _ & HY & Hfit & ->)%fit_Ok.
  rewrite Htots in HY. injection HY as <- <-.
  cbn [VectorModel._fit vector_model] in Hfit.
  unfold VectorClassificationModel._fit, fit_method, call_fitClassifier in Hfit.
  revert Hfit. run_method.
  destruct (iloc_column0 Y) as [column|e]; [|by intros [=]].
  match goal with |- context [_fitClassifier ?s X' Y] =>
    set (before := s); destruct (_fitClassifier before X' Y) as [[[]|e] c] eqn:Hc
  end; [|by intros [=]].
  intros [= <-]. exists column, X', before. by repeat split.
Qed.

End ClassificationProperties.

(** C3 in the words of the claim does not hold: for the first column
    b, a, b, c, a the recorded labels are b, a, c, while the sorted set
    of the strings is a, b, c. *)
Lemma sorted_labels_counterexample :
  let model := @VectorClassificationModel.__init__ unit [] () in
  ∃ self' column,
    @VectorModel.fit _ (@VectorClassificationModel.vector_model unit
                          Examples.EchoClassifier)
      Examples.X5 Examples.Y5 model = (Ok (), self') ∧
    iloc_column0 Examples.Y5 = Ok column ∧
    VectorClassificationModel._labels (VectorModel.own self') = Some ["b"; "a"; "c"] ∧
    sorted_unique_labels column = ["a"; "b"; "c"] ∧
    VectorClassificationModel._labels (VectorModel.own self')
      ≠ Some (sorted_unique_labels column).
Proof. simpl. do 2 eexists. repeat split; try reflexivity. by vm_compute. Qed.

Lemma fit_records_labels_in_order_of_appearance_witness :
  let model := @VectorClassificationModel.__init__ unit [] () in
  ∃ self',
    VectorModel._trainingOutputTransformers model = [] ∧
    @VectorModel.fit _ (@VectorClassificationModel.vector_model unit
                          Examples.EchoClassifier)
      Examples.X5 Examples.Y5 model = (Ok (), self') ∧
    ∃ column X' before,
      iloc_column0 Examples.Y5 = Ok column ∧
      VectorClassificationModel._labels (VectorModel.own self')
        = Some (str <$> unique column) ∧
      VectorClassificationModel._labels (VectorModel.own before)
        = Some (str <$> unique column) ∧
      @VectorClassificationModel._fitClassifier unit Examples.EchoClassifier
        before X' Examples.Y5
        = (Ok (), VectorClassificationModel.classifier (VectorModel.own self')).
Proof.
  eexists. split; [reflexivity |]. split; [reflexivity |].
  apply (@fit_records_labels_in_order_of_appearance unit Examples.EchoClassifier
           Examples.X5 Examples.Y5 (VectorClassificationModel.__init__ [] ()));
    reflexivity.
Defined.

(** ** ChainedVectorRegressionPredictor *)

Section ChainedFirstStep.
Context {P : Type} `{!PredictorModel P}.

(** The first step of the chained prediction: the wrapped predictor is
    called on the input itself, and its failure is the failure of the
    chained prediction. *)
Lemma chained_predict_first (c : Chained.t P) (x : DataFrame) :
  Chained.predict x c =
  match predict x (Chained.predictor c) with
  | (Raise e, p') => (Raise e, Chained.set_predictor p' c)
  | (Ok y, p') =>
      if bool_decide (shape1 y ≠ shape1 x)
      then (Raise (Exception "Model cannot be used for chained execution: inputDim does not match outputDim"),
            Chained.set_predictor p' c)
      else Chained.chain (Z.to_nat (Chained.nChainedPredictions c - 1)) y
             (Chained.set_predictor p' c)
  end.
Proof.
  unfold Chained.predict, Chained.call_predictor. run_method.
  destruct (predict x (Chained.predictor c)) as [[y|e] p']; [|done].
  by case_bool_decide.
Qed.

End ChainedFirstStep.

Section ChainedProperties.
Context {P : Type} `{!PredictorModel P}.

(** C2, as the code has it: constructing a chained predictor never fails
    and calls nothing; when the wrapped predictor answers with another
    number of columns than it was given, the chained [predict] raises
    after exactly one call of the wrapped [predict], on the original
    input, whatever the number of chained predictions. *)
Theorem chained_mismatch_raises_after_first_prediction (p p' : P) (n : Z)
    (x y : DataFrame) :
  predict x p = (Ok y, p') → shape1 y ≠ shape1 x →
  let c := Chained.__init__ (mkRecorder p []) n in
  calls (Chained.predictor c) = [] ∧
  ∃ msg c',
    Chained.predict x c = (Raise (Exception msg), c') ∧
    calls (Chained.predictor c') = [x] ∧
    recorded (Chained.predictor c') = p'.
Proof.
  intros Hp Hdim c. split; [done |].
  rewrite chained_predict_first.
  cbn [predict Recorder_predictor Chained.predictor c Chained.__init__
       recorded calls].
  rewrite Hp. rewrite bool_decide_eq_true_2 by done.
  by eexists _, _.
Qed.

(** C8, as the code has it: with one chained prediction, [predict]
    returns what a single direct call of the wrapped predictor returns
    whenever that call succeeds with as many columns as its input; it
    raises when the direct call raises and when the column counts
    differ. In each case the wrapped predictor was called once. *)
Theorem chained_once_is_direct_when_dimensions_agree (p : P) (x : DataFrame) :
  let c := Chained.__init__ p 1 in
  (∀ y p', predict x p = (Ok y, p') → shape1 y = shape1 x →
     Chained.predict x c = (Ok y, Chained.set_predictor p' c)) ∧
  (∀ y p', predict x p = (Ok y, p') → shape1 y ≠ shape1 x →
     ∃ msg, Chained.predict x c
            = (Raise (Exception msg), Chained.set_predictor p' c)) ∧
  (∀ e p', predict x p = (Raise e, p') →
     Chained.predict x c = (Raise e, Chained.set_predictor p' c)) ∧
  (succeeds (Chained.predict x c).1 ↔
     ∃ y p', predict x p = (Ok y, p') ∧ shape1 y = shape1 x).
Proof.
  intros c. rewrite chained_predict_first.
  cbn [Chained.predictor c Chained.__init__ Chained.nChainedPredictions].
  destruct (predict x p) as [[y|e] p'] eqn:Hp.
  - case_bool_decide as Hdim; cbn [Chained.chain Z.to_nat Z.sub Z.add Z.opp Z.pos_sub].
    + repeat split; try by (intros; simplify_eq).
      * intros ?? [= <- <-] _. by eexists.
      * by intros [? ?].
      * intros (? & ? & [= <- <-] & ?). done.
    + repeat split; try by (intros; simplify_eq).
      * intros _. by eexists _, _.
      * intros _. by eexists.
  - repeat split; try by (intros; simplify_eq).
    + by intros [? ?].
    + by intros (? & ? & ? & ?).
Qed.

End ChainedProperties.

(** A predictor that turns two columns into one: the chained predictor is
    constructed without a failure and without a call, and its [predict]
    raises with one call of the wrapped predictor on record. *)
Lemma fails_before_any_prediction_counterexample :
  let c := @ChainedVectorRegressionPredictor.__init__ (Recorder unit)
             (mkRecorder () []) 3 in
  calls (ChainedVectorRegressionPredictor.predictor c) = [] ∧
  (∃ msg,
     @ChainedVectorRegressionPredictor.predict (Recorder unit)
       (@Recorder_predictor unit Examples.FirstColumn) Examples.X5 c
     = (Raise (Exception msg),
        ChainedVectorRegressionPredictor.mk 3 (mkRecorder () [Examples.X5]))) ∧
  ¬ @fails_before_any_prediction unit Examples.FirstColumn () 3 Examples.X5.
Proof.
  split; [done |]. split; [by eexists |].
  intros H. specialize (H _ _ eq_refl). cbv beta in H.
  assert (shape1 (Examples.first_column Examples.X5) ≠ shape1 Examples.X5) as Hdim
    by by vm_compute.
  specialize (H Hdim _ _ eq_refl). discriminate H.
Qed.

Lemma chained_mismatch_raises_after_first_prediction_witness :
  @predict unit Examples.FirstColumn Examples.X5 ()
    = (Ok (Examples.first_column Examples.X5), ()) ∧
  shape1 (Examples.first_column Examples.X5) ≠ shape1 Examples.X5 ∧
  let c := @ChainedVectorRegressionPredictor.__init__ (Recorder unit)
             (mkRecorder () []) 3 in
  calls (ChainedVectorRegressionPredictor.predictor c) = [] ∧
  ∃ msg c',
    @ChainedVectorRegressionPredictor.predict (Recorder unit)
      (@Recorder_predictor unit Examples.FirstColumn) Examples.X5 c
      = (Raise (Exception msg), c') ∧
    calls (ChainedVectorRegressionPredictor.predictor c') = [Examples.X5] ∧
    recorded (ChainedVectorRegressionPredictor.predictor c') = ().
Proof.
  assert (shape1 (Examples.first_column Examples.X5) ≠ shape1 Examples.X5) as Hdim
    by by vm_compute.
  split; [reflexivity |]. split; [exact Hdim |].
  exact (@chained_mismatch_raises_after_first_prediction unit Examples.FirstColumn
           () () 3 Examples.X5 (Examples.first_column Examples.X5) eq_refl Hdim).
Defined.

(** The predictor that turns two columns into one answers a direct call,
    while the chained predictor with one prediction raises. *)
Lemma chained_once_equals_direct_counterexample :
  (@predict unit Examples.FirstColumn Examples.X5 ()).1
    = Ok (Examples.first_column Examples.X5) ∧
  raises (@ChainedVectorRegressionPredictor.predict unit Examples.FirstColumn
            Examples.X5 (ChainedVectorRegressionPredictor.__init__ () 1)).1 ∧
  ¬ @chained_once_equals_direct unit Examples.FirstColumn () Examples.X5.
Proof.
  split; [reflexivity |]. split; [by eexists |].
  unfold chained_once_equals_direct. by vm_compute.
Qed.

(** With the predictor that returns its input, one chained prediction is
    the direct prediction. *)
Lemma chained_once_is_direct_when_dimensions_agree_witness :
  @predict unit Examples.Identity Examples.X5 () = (Ok Examples.X5, ()) ∧
  shape1 Examples.X5 = shape1 Examples.X5 ∧
  @ChainedVectorRegressionPredictor.predict unit Examples.Identity
    Examples.X5 (ChainedVectorRegressionPredictor.__init__ () 1)
  = (Ok Examples.X5,
     ChainedVectorRegressionPredictor.set_predictor ()
       (ChainedVectorRegressionPredictor.__init__ () 1)).
Proof.
  split; [reflexivity |]. split; [reflexivity |].
  exact (proj1 (@chained_once_is_direct_when_dimensions_agree unit
                  Examples.Identity () Examples.X5)
           Examples.X5 () eq_refl eq_refl).
Defined.

(** * Further properties *)

(** ** InputOutputData.filterIndices *)

Lemma iloc_row_cases (df : DataFrame) (i : Z) :
  (out_of_bounds (len df) i ∧
     iloc_row df i = Raise (IndexError "positional indexers are out-of-bounds")) ∨
  (¬ out_of_bounds (len df) i ∧
     ∃ r, rows df !! position (len df) i = Some r ∧ iloc_row df i = Ok r).
Proof.
  unfold iloc_row, out_of_bounds, position.
  destruct ((i <? - Z.of_nat (len df)) || (Z.of_nat (len df) <=? i)) eqn:Hb.
  - left. split; [|done]. apply orb_true_iff in Hb. lia.
  - right. apply orb_false_iff in Hb. split; [lia |].
    destruct (lookup_lt_is_Some_2 (rows df)
                (Z.to_nat (if i <? 0 then i + Z.of_nat (len df) else i)))
      as [r Hr].
    { destruct Hb as [Hb1 Hb2]. unfold len in *.
      apply Z.ltb_ge in Hb1. apply Z.leb_gt in Hb2.
      destruct (i <? 0) eqn:Hi; lia. }
    exists r. by rewrite Hr.
Qed.

Lemma iloc_Ok_positions (df df' : DataFrame) (indices : list Z) :
  iloc df indices = Ok df' →
  columns df' = columns df ∧
  Forall (λ i, ¬ out_of_bounds (len df) i) indices ∧
  Forall2 (λ i r, rows df !! position (len df) i = Some r) indices (rows df').
Proof.
  unfold iloc. intros (rs & Hrs & [= <-])%bind_Ok. simpl.
  apply mapM_Ok_Forall2 in Hrs. split; [done |]. split.
  - eapply Forall2_Forall_l; [done |]. apply Forall_forall. intros r _ i Hi.
    destruct (iloc_row_cases df i) as [[_ Hr]|[? _]]; [congruence | done].
  - eapply Forall2_impl; [done |]. intros i r Hi. simpl in Hi.
    destruct (iloc_row_cases df i) as [[_ Hr]|[_ (r' & ? & Hr)]]; congruence.
Qed.

Lemma iloc_raises_iff (df : DataFrame) (indices : list Z) :
  raises (iloc df indices) ↔ Exists (out_of_bounds (len df)) indices.
Proof.
  unfold iloc. induction indices as [|i indices IH].
  - simpl. split; [by intros [? ?] | by inversion 1].
  - rewrite Exists_cons. cbn [mapM].
    destruct (iloc_row_cases df i) as [[Hout Hr]|[Hin (r & _ & Hr)]];
      rewrite Hr; unfold mbind at 2, result_bind at 2.
    + split; [by left | intros _; by eexists].
    + unfold mbind at 2, result_bind at 2.
      destruct (mapM (iloc_row df) indices) as [rs|e] eqn:Hrs.
      * split; [by intros [? ?] |]. intros [? | Hex]; [done |].
        apply IH in Hex as [? ?]. done.
      * split; [intros _; right; apply IH; by eexists | intros _; by eexists].
Qed.

Lemma iloc_Raise_IndexError (df : DataFrame) (indices : list Z) (e : exn) :
  iloc df indices = Raise e →
  e = IndexError "positional indexers are out-of-bounds".
Proof.
  unfold iloc. induction indices as [|i indices IH]; [done |]. cbn [mapM].
  destruct (iloc_row_cases df i) as [[_ Hr]|[_ (r & _ & Hr)]]; rewrite Hr;
    unfold mbind at 2, result_bind at 2; [by intros [= <-] |].
  unfold mbind at 2, result_bind at 2.
  destruct (mapM (iloc_row df) indices) as [rs|e'] eqn:Hrs; [done |].
  intros [= <-]. by apply IH.
Qed.

Section FilterIndicesProperties.
Import InputOutputData.

(** X1: a successful filterIndices keeps the columns of both frames,
    returns one row per index, and its k-th row is, label and cells, the
    row of the data at the position the k-th index stands for, a negative
    index counting from the end. *)
Theorem filterIndices_rows (d d' : InputOutputData.t) (indices : list Z) :
  filterIndices d indices = Ok d' →
  columns (inputs d') = columns (inputs d) ∧
  columns (outputs d') = columns (outputs d) ∧
  __len__ d' = length indices ∧
  Forall2 (λ i r, rows (inputs d) !! position (len (inputs d)) i = Some r)
    indices (rows (inputs d')) ∧
  Forall2 (λ i r, rows (outputs d) !! position (len (outputs d)) i = Some r)
    indices (rows (outputs d')).
Proof.
  intros (Hi & Ho & _ & Hlen)%filterIndices_Ok.
  apply iloc_Ok_positions in Hi as (? & _ & ?), Ho as (? & _ & ?).
  by repeat split.
Qed.

(** X2: on an instance, filterIndices raises exactly when some index lies
    outside [-n, n) for the n rows of the instance, and what it raises is
    an IndexError; the empty selection is accepted. *)
Theorem filterIndices_raises_iff (d : InputOutputData.t) (indices : list Z) :
  instance d →
  (raises (filterIndices d indices)
     ↔ Exists (out_of_bounds (__len__ d)) indices) ∧
  (∀ e, filterIndices d indices = Raise e →
        e = IndexError "positional indexers are out-of-bounds") ∧
  succeeds (filterIndices d []).
Proof.
  intros Hal%instance_is_aligned. unfold aligned, __len__ in *.
  assert (∀ idx, filterIndices d idx =
    match iloc (inputs d) idx with
    | Raise e => Raise e
    | Ok i' => match iloc (outputs d) idx with
               | Raise e => Raise e
               | Ok o' => Ok (InputOutputData.mk i' o')
               end
    end) as Hcases.
  { intros idx. unfold filterIndices, mbind, result_bind.
    destruct (iloc (inputs d) idx) as [i'|e] eqn:Hi; [|done].
    destruct (iloc (outputs d) idx) as [o'|e] eqn:Ho; [|done].
    apply init_Ok. split; [|done].
    apply iloc_Ok_len in Hi as [-> _]. by apply iloc_Ok_len in Ho as [-> _]. }
  split; [|split].
  - rewrite Hcases, <- iloc_raises_iff.
    destruct (iloc (inputs d) indices) as [i'|e] eqn:Hi.
    + destruct (iloc (outputs d) indices) as [o'|e] eqn:Ho.
      * split; by intros [? ?].
      * exfalso. assert (raises (iloc (outputs d) indices)) as Hr by by eexists.
        apply iloc_raises_iff in Hr. rewrite <- Hal in Hr.
        apply iloc_raises_iff in Hr as [? ?]. congruence.
    + split; intros _; by eexists.
  - intros e. rewrite Hcases.
    destruct (iloc (inputs d) indices) as [i'|e'] eqn:Hi.
    + destruct (iloc (outputs d) indices) as [o'|e'] eqn:Ho; [done |].
      intros [= <-]. by eapply iloc_Raise_IndexError.
    + intros [= <-]. by eapply iloc_Raise_IndexError.
  - rewrite Hcases. by eexists.
Qed.

End FilterIndicesProperties.

Lemma Forall2_functional {A B} (P : A → B → Prop) (l : list A) (k1 k2 : list B) :
  (∀ x y z, P x y → P x z → y = z) →
  Forall2 P l k1 → Forall2 P l k2 → k1 = k2.
Proof.
  intros Hfun H1. revert k2. induction H1 as [|x y l k1 Hxy _ IH]; intros k2 H2.
  - by inversion H2.
  - inversion H2 as [|? z ? k2' Hxz H2']; subst. f_equal; [by eapply Hfun | by apply IH].
Qed.

Lemma iloc_all_rows (df : DataFrame) :
  iloc df (range (Z.of_nat (len df))) = Ok df.
Proof.
  unfold iloc, range.
  assert (mapM (iloc_row df) (seqZ 0 (Z.of_nat (len df))) = Ok (rows df)) as ->.
  { apply mapM_Ok_Forall2. apply Forall2_same_length_lookup_2.
    { rewrite length_seqZ. unfold len. lia. }
    intros k i r Hi Hr. apply lookup_seqZ in Hi as [-> Hk].
    destruct (iloc_row_Ok df k) as (r' & Hr' & Hrow); [unfold len in *; lia |].
    rewrite Z.add_0_l, Hrow. congruence. }
  unfold mbind, result_bind. by destruct df.
Qed.

Lemma iloc_compose (df df1 df2 : DataFrame) (first second : list Z) :
  iloc df first = Ok df1 → iloc df1 second = Ok df2 →
  iloc df (compose_indices first second) = Ok df2.
Proof.
  intros H1 H2. pose proof (iloc_Ok_len _ _ _ H1) as [Hlen1 _].
  apply iloc_Ok_positions in H1 as (Hc1 & Hin1 & Hrows1).
  apply iloc_Ok_positions in H2 as (Hc2 & _ & Hrows2).
  unfold iloc.
  assert (mapM (iloc_row df) (compose_indices first second) = Ok (rows df2)) as ->.
  { apply mapM_Ok_Forall2. unfold compose_indices. apply Forall2_fmap_l.
    eapply Forall2_impl; [done |]. intros j r Hr. simpl. rewrite Hlen1 in Hr.
    destruct (Forall2_lookup_r _ _ _ _ _ Hrows1 Hr) as (i & Hi & Hrow).
    rewrite Hi. simpl.
    destruct (iloc_row_cases df i) as [[Hout _]|[_ (r' & ? & ->)]]; [|congruence].
    exfalso. eapply Forall_lookup_1 in Hin1; [|done]. done. }
  unfold mbind, result_bind. rewrite <- Hc1, <- Hc2. by destruct df2.
Qed.

Section FilterIndicesAlgebra.
Import InputOutputData.

(** X3: selecting all positions of an instance in order gives the
    instance back. *)
Theorem filterIndices_all (d : InputOutputData.t) :
  instance d → filterIndices d (range (Z.of_nat (__len__ d))) = Ok d.
Proof.
  intros Hal%instance_is_aligned. unfold filterIndices, __len__.
  rewrite iloc_all_rows. unfold mbind at 1, result_bind at 1.
  rewrite Hal, iloc_all_rows. unfold mbind, result_bind.
  apply init_Ok. split; [done | by destruct d].
Qed.

(** X4: filtering a filtered data set is filtering the original once, by
    the positions of the first selection that the second one picks. *)
Theorem filterIndices_compose (d d1 d2 : InputOutputData.t)
    (first second : list Z) :
  filterIndices d first = Ok d1 → filterIndices d1 second = Ok d2 →
  filterIndices d (compose_indices first second) = Ok d2.
Proof.
  intros (Hi1 & Ho1 & _ & _)%filterIndices_Ok (Hi2 & Ho2 & Hal & _)%filterIndices_Ok.
  unfold filterIndices.
  rewrite (iloc_compose _ _ _ _ _ Hi1 Hi2), (iloc_compose _ _ _ _ _ Ho1 Ho2).
  unfold mbind, result_bind. apply init_Ok. split; [done | by destruct d2].
Qed.

(** X5: when the inputs and the outputs of a data set carry the same row
    labels, so do the inputs and the outputs of every filtered copy. *)
Theorem filterIndices_keeps_labels_aligned (d d' : InputOutputData.t)
    (indices : list Z) :
  df_index (inputs d) = df_index (outputs d) →
  filterIndices d indices = Ok d' →
  df_index (inputs d') = df_index (outputs d').
Proof.
  intros Hlabels (Hi & Ho & _ & _)%filterIndices_Ok.
  apply iloc_Ok_positions in Hi as (_ & _ & Hi), Ho as (_ & _ & Ho).
  assert (len (inputs d) = len (outputs d)) as Hlen.
  { unfold len. rewrite <- (length_fmap fst (rows (inputs d))).
    rewrite <- (length_fmap fst (rows (outputs d))).
    unfold df_index in Hlabels. by rewrite Hlabels. }
  unfold df_index in *.
  eapply (Forall2_functional
            (λ i lab, (rows (inputs d)).*1 !! position (len (inputs d)) i = Some lab)
            indices).
  - intros ???. congruence.
  - apply Forall2_fmap_r. eapply Forall2_impl; [exact Hi |].
    intros i r Hr. simpl. by rewrite list_lookup_fmap, Hr.
  - apply Forall2_fmap_r. eapply Forall2_impl; [exact Ho |].
    intros i r Hr. simpl. rewrite Hlabels, Hlen. by rewrite list_lookup_fmap, Hr.
Qed.

End FilterIndicesAlgebra.

(** ** The evaluator at the ends of the fraction range *)


Section EvaluatorEdges.
Context {G : Type} `{!RandomStateAPI G}.
Hypothesis Hpermutes : permutes_range.
Import InputOutputData VectorModelEvaluator.


End EvaluatorEdges.

(** ** The folds of the cross validator *)

Lemma concat_blocks {A} (l : list A) (t k : nat) :
  concat ((λ i, take t (drop (i * t) l)) <$> seq 0 k) = take (k * t) l.
Proof.
  induction k as [|k IH]; [done |].
  rewrite seq_S, fmap_app, concat_app, IH. simpl. rewrite app_nil_r.
  rewrite take_take_drop. f_equal. lia.
Qed.

Section CrossValidatorFolds.
Context {G : Type} `{!RandomStateAPI G}.
Hypothesis Hpermutes : permutes_range.
Import InputOutputData VectorModelCrossValidator.

Lemma folds_indices_Ok (n : nat) (folds seed : Z) :
  folds ≠ 0 →
  folds_indices n folds seed
  = Ok (fold_indices (permutation n (RandomState seed)).1
          (Z.of_nat n `div` folds) <$> range folds).
Proof.
  intros Hfolds. unfold folds_indices, py_floordiv.
  by rewrite decide_False by done.
Qed.


(** X8: for K > 0 folds on N rows, every fold's test block has exactly
    floor(N / K) indices, and its training and test indices together are a
    permutation of all row positions; accordingly every evaluator holds
    floor(N / K) test rows and the other N - floor(N / K) rows for
    training. *)
Theorem crossvalidator_fold_partition (data : InputOutputData.t)
    (folds seed : Z) (cv : VectorModelCrossValidator.t) :
  0 < folds →
  VectorModelCrossValidator.__init__ data folds seed = Ok cv →
  let n := __len__ data in
  ∃ idx,
    folds_indices n folds seed = Ok idx ∧
    Forall2 (built_from data) idx (modelEvaluators cv) ∧
    Forall (λ fold, length fold.2 = Z.to_nat (Z.of_nat n `div` folds) ∧
                    fold.1 ++ fold.2 ≡ₚ seq 0 n) idx ∧
    Forall (λ ev,
              __len__ (VectorModelEvaluator.testData ev)
                = Z.to_nat (Z.of_nat n `div` folds) ∧
              (__len__ (VectorModelEvaluator.trainingData ev)
                 + __len__ (VectorModelEvaluator.testData ev) = n)%nat)
      (modelEvaluators cv).
Proof.
  intros Hfolds Hcv n.
  apply crossvalidator_init_Ok in Hcv as (idx & Hidx & Hbuilt).
  exists idx. split; [done |]. split; [done |].
  assert (Forall (λ fold, length fold.2 = Z.to_nat (Z.of_nat n `div` folds) ∧
                          fold.1 ++ fold.2 ≡ₚ seq 0 n) idx) as Hparts.
  { rewrite folds_indices_Ok in Hidx by lia. injection Hidx as <-.
    set (perm := (permutation _ _).1).
    destruct (permuted_range_facts perm n (Hpermutes _ _)) as (_ & Hlen & _).
    apply Forall_fmap, Forall_forall. intros i Hi%elem_of_seqZ.
    unfold compose. cbn beta. fold n.
    pose proof (fold_indices_blocks perm folds i) as Hblocks.
    specialize (Hblocks ltac:(lia)). cbv zeta in Hblocks. rewrite Hlen in Hblocks.
    destruct Hblocks as [-> Hle]. cbn [fst snd].
    set (t := Z.to_nat (Z.of_nat n `div` folds)) in *. split.
    - rewrite length_take, length_drop. lia.
    - trans (take (Z.to_nat i * t) perm ++ take t (drop (Z.to_nat i * t) perm)
               ++ drop (Z.to_nat i * t + t) perm).
      + rewrite <- (assoc (++)). apply Permutation_app_head, Permutation_app_comm.
      + rewrite <- drop_drop, !take_drop. apply Hpermutes. }
  split; [done |].
  eapply Forall2_Forall_r; [exact Hbuilt |].
  eapply Forall_impl; [exact Hparts |].
  intros [train test] [Hlt Hperm] ev [Htr Hte]. cbn [fst snd] in *.
  apply filterIndices_Ok in Htr as (_ & _ & _ & Hltr), Hte as (_ & _ & _ & Hlte).
  rewrite length_fmap in Hltr, Hlte.
  apply Permutation_length in Hperm. rewrite length_app, length_seq in Hperm.
  lia.
Qed.

(** X9: the test blocks of the K > 0 folds, one after the other, are the
    first K * floor(N / K) permuted indices: no index is in two test
    blocks, and when K divides N every row position is in exactly one. *)
Theorem crossvalidator_test_blocks (n : nat) (folds seed : Z)
    (idx : list (list nat * list nat)) :
  0 < folds →
  folds_indices n folds seed = Ok idx →
  concat idx.*2
    = take (Z.to_nat (folds * (Z.of_nat n `div` folds)))
        (permutation n (RandomState seed)).1 ∧
  NoDup (concat idx.*2) ∧
  (Z.of_nat n `mod` folds = 0 → concat idx.*2 ≡ₚ seq 0 n).
Proof.
  intros Hfolds Hidx. rewrite folds_indices_Ok in Hidx by lia. injection Hidx as <-.
  set (perm := (permutation _ _).1).
  destruct (permuted_range_facts perm n (Hpermutes _ _)) as (Hnd & Hlen & _).
  assert (0 ≤ Z.of_nat n `div` folds) as Ht by (apply Z.div_pos; lia).
  set (t := Z.to_nat (Z.of_nat n `div` folds)).
  assert (concat (fold_indices perm (Z.of_nat n `div` folds) <$> range folds).*2
          = take (Z.to_nat folds * t) perm) as Hconcat.
  { rewrite <- concat_blocks. f_equal.
    unfold range, seqZ. rewrite <- !list_fmap_compose.
    apply list_fmap_ext. intros k i Hi%lookup_seq. unfold compose. cbn beta.
    pose proof (fold_indices_blocks perm folds (Z.of_nat i + 0)) as Hblocks.
    specialize (Hblocks ltac:(lia)). cbv zeta in Hblocks. rewrite Hlen in Hblocks.
    destruct Hblocks as [-> _]. cbn [snd]. fold t.
    by replace (Z.to_nat (Z.of_nat i + 0)) with i by lia. }
  rewrite Hconcat. replace (Z.to_nat (folds * (Z.of_nat n `div` folds)))
    with (Z.to_nat folds * t)%nat by (unfold t; lia).
  split; [done |]. split.
  - rewrite <- (take_drop (Z.to_nat folds * t) perm) in Hnd.
    by apply NoDup_app in Hnd as [? _].
  - intros Hdiv. rewrite take_ge; [apply Hpermutes |].
    rewrite Hlen. apply Z.div_exact in Hdiv; [|lia]. unfold t. nia.
Qed.

End CrossValidatorFolds.

(** ** More on fitting and predicting *)

Lemma set_index_Ok (y y1 : DataFrame) (index : list value) :
  set_index y index = Ok y1 →
  df_index y1 = index ∧ len y1 = len y ∧ length index = len y ∧
  columns y1 = columns y ∧ (rows y1).*2 = (rows y).*2.
Proof.
  unfold set_index. case_decide as Hlen; [done |]. intros [= <-].
  unfold df_index, len in *. simpl.
  assert (length index = length (rows y).*2) as Hl by by rewrite length_fmap.
  repeat split; try done.
  - apply fst_zip. lia.
  - rewrite length_zip, length_fmap. lia.
  - apply snd_zip. lia.
Qed.

Section VectorModelMore.
Context {MS : Type} `{!VectorModel.Abstract MS}.
Import VectorModel.

(** [predict], case by case. *)
Lemma predict_cases (x : DataFrame) (self : VectorModel.t MS) :
  predict x self =
  match _checkAndTransformInputs x self with
  | (Raise e, s) => (Raise e, s)
  | (Ok x', s) =>
      match _predict s x' with
      | (Raise e, o) => (Raise e, set_own o s)
      | (Ok y0, o) =>
          match set_index y0 (df_index x') with
          | Raise e => (Raise e, set_own o s)
          | Ok y1 =>
              ((_applyTransformers y1 false (_outputTransformers s)).1,
               set_own o s)
          end
      end
  end.
Proof.
  unfold predict, call_predict. run_method.
  destruct (_checkAndTransformInputs x self) as [[x'|e] s]; [|done].
  destruct (_predict s x') as [[y0|e] o]; [|done].
  destruct (set_index y0 (df_index x')) as [y1|e]; [|done].
  cbn [_outputTransformers set_own].
  pose proof (applyTransformers_apply_only y1 (_outputTransformers s)) as Hsame.
  destruct (_applyTransformers y1 false _) as [[y|e] ots]; simpl in *; by subst.
Qed.

(** What a successful [predict] went through. *)
Lemma predict_Ok (x y : DataFrame) (self self' : VectorModel.t MS) :
  predict x self = (Ok y, self') →
  ∃ x' y0 y1,
    (_applyTransformers x false (_inputTransformers self)).1 = Ok x' ∧
    _predictedVariableNames self ≠ None ∧
    Some (columns x') = _modelInputVariableNames self ∧
    _predict self x' = (Ok y0, own self') ∧
    set_index y0 (df_index x') = Ok y1 ∧
    (_applyTransformers y1 false (_outputTransformers self)).1 = Ok y.
Proof.
  rewrite predict_cases, checkAndTransformInputs_cases.
  destruct (_applyTransformers x false _).1 as [x'|e] eqn:Hx'; [|done].
  case_bool_decide as Hnames; [done |].
  case_bool_decide as Hcols; [done |].
  destruct (_predict self x') as [[y0|e] o] eqn:Hy0; [|done].
  destruct (set_index y0 (df_index x')) as [y1|e] eqn:Hy1; [|done].
  intros [= Hy <-]. by exists x', y0, y1.
Qed.

(** X10: [predict] returns a prediction only from a model that was
    fitted and only for a frame whose transformed column list is the one
    recorded by [fit]. *)
Theorem predict_only_when_fitted (x y : DataFrame)
    (self self' : VectorModel.t MS) :
  predict x self = (Ok y, self') →
  getPredictedVariableNames self ≠ None ∧
  ∃ x', (_applyTransformers x false (_inputTransformers self)).1 = Ok x' ∧
        _modelInputVariableNames self = Some (columns x').
Proof.
  intros (x' & _ & _ & Hx' & Hnames & Hcols & _)%predict_Ok.
  split; [done |]. by exists x'.
Qed.

(** X11: the frame the model's own routine returns gets the row labels of
    the transformed input before the output transformers see it; with
    empty pipelines the prediction carries exactly the row labels of the
    input, in the same order, and has as many rows. *)
Theorem predict_keeps_row_labels (x y : DataFrame)
    (self self' : VectorModel.t MS) :
  predict x self = (Ok y, self') →
  (∃ x' y1,
     (_applyTransformers x false (_inputTransformers self)).1 = Ok x' ∧
     df_index y1 = df_index x' ∧
     (_applyTransformers y1 false (_outputTransformers self)).1 = Ok y) ∧
  (_inputTransformers self = [] → _outputTransformers self = [] →
     df_index y = df_index x ∧ len y = len x).
Proof.
  intros (x' & y0 & y1 & Hx' & _ & _ & _ & Hy1 & Hy)%predict_Ok.
  apply set_index_Ok in Hy1 as (Hidx & Hlen1 & Hlen0 & _).
  split; [by exists x', y1 |].
  intros Hits Hots. rewrite Hits in Hx'. rewrite Hots in Hy.
  injection Hx' as <-. injection Hy as <-. split; [done |].
  unfold df_index in Hlen0. rewrite length_fmap in Hlen0. unfold len in *. lia.
Qed.

(** [predict] writes to the attributes of the concrete model only. *)
Lemma predict_state (x : DataFrame) (r : result DataFrame)
    (self self' : VectorModel.t MS) :
  predict x self = (r, self') →
  self' = set_own (own self') self.
Proof.
  rewrite predict_cases, checkAndTransformInputs_cases.
  assert (self = set_own (own self) self) as Hself by by destruct self.
  destruct (_applyTransformers x false _).1 as [x'|e]; [|by intros [= _ <-]].
  case_bool_decide; [by intros [= _ <-] |].
  case_bool_decide; [by intros [= _ <-] |].
  destruct (_predict self x') as [[y0|e] o]; [|by intros [= _ <-]].
  destruct (set_index y0 (df_index x')) as [y1|e]; by intros [= _ <-].
Qed.

(** X12: whatever [predict] returns or raises, it leaves alone what [fit]
    recorded: the three pipelines and the three name lists of the model
    are as before, only the attributes of the concrete model can have
    changed. *)
Theorem predict_keeps_fitted_state (x : DataFrame) (r : result DataFrame)
    (self self' : VectorModel.t MS) :
  predict x self = (r, self') →
  _inputTransformers self' = _inputTransformers self ∧
  _outputTransformers self' = _outputTransformers self ∧
  _trainingOutputTransformers self' = _trainingOutputTransformers self ∧
  getPredictedVariableNames self' = getPredictedVariableNames self ∧
  _modelInputVariableNames self' = _modelInputVariableNames self ∧
  getModelOutputVariableNames self' = getModelOutputVariableNames self.
Proof. intros ->%predict_state. by repeat split. Qed.

(** [fit], case by case. *)
Lemma fit_cases (X Y : DataFrame) (self : VectorModel.t MS) :
  fit X Y self =
  let named := set_predictedVariableNames (Some (columns Y)) self in
  match _applyTransformers X true (_inputTransformers self) with
  | (Raise e, its) => (Raise e, set_inputTransformers its named)
  | (Ok X', its) =>
      match _applyTransformers Y true (_trainingOutputTransformers self) with
      | (Raise e, tots) =>
          (Raise e,
           set_trainingOutputTransformers tots (set_inputTransformers its named))
      | (Ok Y', tots) =>
          let ready :=
            mk its (_outputTransformers self) tots (Some (columns Y))
               (Some (columns X')) (Some (columns Y')) (own self) in
          let '(r, o) := _fit ready X' Y' in (r, set_own o ready)
      end
  end.
Proof.
  unfold fit, _applyInputTransformers, call_fit. run_method.
  cbn [_inputTransformers set_predictedVariableNames].
  destruct (_applyTransformers X true _) as [[X'|e] its]; [|done].
  cbn [_trainingOutputTransformers set_inputTransformers].
  destruct (_applyTransformers Y true _) as [[Y'|e] tots]; [|done].
  done.
Qed.

(** X13: when [fit] raises because a transformer raised, on a model that
    had no recorded input columns, the predicted variable names are
    already those of [Y], yet every later [predict] raises. *)
Theorem failed_fit_leaves_model_unusable (X Y : DataFrame) (e : exn)
    (self : VectorModel.t MS) :
  _modelInputVariableNames self = None →
  transformer_failed self X Y e →
  ∃ self',
    fit X Y self = (Raise e, self') ∧
    getPredictedVariableNames self' = Some (columns Y) ∧
    ∀ x, raises (predict x self').1.
Proof.
  intros Hnone Hfail. rewrite fit_cases. cbv zeta.
  assert (∀ s : VectorModel.t MS, _modelInputVariableNames s = None →
            ∀ x, raises (predict x s).1) as Hraises.
  { intros s Hs x. apply predict_check_raises.
    rewrite checkAndTransformInputs_cases.
    destruct (_applyTransformers x false _).1; [|by eexists].
    case_bool_decide; [by eexists |].
    rewrite bool_decide_eq_true_2 by (by rewrite Hs). by eexists. }
  destruct Hfail as [Hin | [[X' Hin] Hout]].
  - destruct (_applyTransformers X true _) as [[?|e'] its]; simpl in Hin; [done |].
    injection Hin as ->. eexists. split; [done |]. split; [done |].
    by apply Hraises.
  - destruct (_applyTransformers X true _) as [[?|e'] its]; simpl in Hin; [|done].
    destruct (_applyTransformers Y true _) as [[?|e'] tots]; simpl in Hout; [done |].
    injection Hout as ->. eexists. split; [done |]. split; [done |].
    by apply Hraises.
Qed.

(** X14: when [fit] raises inside the concrete model's own [_fit], the
    names are recorded all the same, and the input check of [predict]
    then accepts every frame with the recorded columns: the check does not
    tell a model whose training failed from a trained one. *)
Theorem fit_failure_in_model_passes_check (X Y X' Y' : DataFrame) (e : exn)
    (its tots : list DataFrameTransformer) (o : MS)
    (self : VectorModel.t MS) :
  _applyTransformers X true (_inputTransformers self) = (Ok X', its) →
  _applyTransformers Y true (_trainingOutputTransformers self) = (Ok Y', tots) →
  _fit (mk its (_outputTransformers self) tots (Some (columns Y))
          (Some (columns X')) (Some (columns Y')) (own self)) X' Y'
    = (Raise e, o) →
  ∃ self',
    fit X Y self = (Raise e, self') ∧
    getPredictedVariableNames self' = Some (columns Y) ∧
    ∀ x x', (_applyTransformers x false (_inputTransformers self')).1 = Ok x' →
            columns x' = columns X' →
            _checkAndTransformInputs x self' = (Ok x', self').
Proof.
  intros HX HY Hfit. rewrite fit_cases. cbv zeta. rewrite HX, HY, Hfit.
  eexists. split; [done |]. split; [done |].
  intros x x' Hx' Hcols. rewrite checkAndTransformInputs_cases, Hx'.
  cbn [_predictedVariableNames _modelInputVariableNames set_own].
  rewrite bool_decide_eq_false_2 by done.
  rewrite bool_decide_eq_false_2; [done |]. intros Hne. apply Hne. by rewrite Hcols.
Qed.

(** X15: a pipeline of two lists of transformers is the first list
    followed by the second on what the first returned; when the first
    raises, the second is neither fitted nor applied. *)
Theorem applyTransformers_app (df : DataFrame) (fit : bool)
    (ts1 ts2 : list DataFrameTransformer) :
  _applyTransformers df fit (ts1 ++ ts2) =
  match _applyTransformers df fit ts1 with
  | (Ok df', ts1') =>
      let '(r, ts2') := _applyTransformers df' fit ts2 in (r, ts1' ++ ts2')
  | (Raise e, ts1') => (Raise e, ts1' ++ ts2)
  end.
Proof.
  revert df. induction ts1 as [|t ts1 IH]; intros df.
  - simpl. by destruct (_applyTransformers df fit ts2).
  - cbn [app _applyTransformers].
    destruct ((_ ← (if fit then transformer_fit df else mret ());
               transformer_apply df) t) as [[df'|e] t']; [|done].
    rewrite IH. destruct (_applyTransformers df' fit ts1) as [[df''|e] ts1'].
    + by destruct (_applyTransformers df'' fit ts2).
    + done.
Qed.

(** X16: rule-based transformers need no fitting: a pipeline made of them
    returns the same frame whether it is run with or without fitting, and
    fitting leaves every transformer as it was. *)
Theorem rule_based_pipeline_ignores_fit (df : DataFrame)
    (transformers : list DataFrameTransformer) :
  Forall rule_based transformers →
  _applyTransformers df true transformers
    = _applyTransformers df false transformers ∧
  (_applyTransformers df true transformers).2 = transformers.
Proof.
  intros Hrule. revert df.
  induction Hrule as [|t ts Ht _ IH]; intros df; [done |].
  cbn [_applyTransformers]. run_method. unfold transformer_fit, transformer_apply.
  rewrite (Ht df (tr_self t)).
  assert ({| tr_self := tr_self t; tr_fit := tr_fit t; tr_apply := tr_apply t |} = t)
    as -> by by destruct t.
  destruct (tr_apply t (tr_self t) df) as [df'|e]; [|done].
  destruct (IH df') as [-> Hsame].
  destruct (_applyTransformers df' false ts) as [r ts'] eqn:Hts.
  split; [done |]. simpl in *. by rewrite Hsame.
Qed.

(** X17: getInputTransformer returns the first input transformer of the
    asked class, and None exactly when there is none. *)
Theorem getInputTransformer_first (self : VectorModel.t MS)
    (cls : DataFrameTransformer → bool) :
  match getInputTransformer self cls with
  | Some it =>
      ∃ before after,
        _inputTransformers self = before ++ it :: after ∧
        cls it = true ∧ Forall (λ t, cls t = false) before
  | None => Forall (λ t, cls t = false) (_inputTransformers self)
  end.
Proof.
  unfold getInputTransformer.
  induction (_inputTransformers self) as [|t ts IH]; [constructor |].
  cbn [first_instance]. destruct (cls t) eqn:Ht.
  - by exists [], ts.
  - destruct (first_instance cls ts) as [it|].
    + destruct IH as (before & after & -> & ? & ?).
      exists (t :: before), after. repeat split; [done | by constructor].
    + by constructor.
Qed.

End VectorModelMore.

(** ** Dictionaries filled in a loop *)

Lemma fill_Ok {V} (f : string → result V) (names : list string)
    (dict d : gmap string V) :
  fill f names dict = Ok d →
  dom d = dom dict ∪ list_to_set names ∧
  (∀ name, name ∈ names → ∃ v, f name = Ok v ∧ d !! name = Some v) ∧
  (∀ name, name ∉ names → d !! name = dict !! name).
Proof.
  revert dict. induction names as [|n names IH]; intros dict.
  - intros [= <-]. split; [set_solver |]. split; [|done].
    intros name Hin. by apply elem_of_nil in Hin.
  - cbn [fill]. intros (v & Hv & Hd)%bind_Ok.
    apply IH in Hd as (Hdom & Hin & Hout). split; [|split].
    + rewrite Hdom, dom_insert_L. set_solver.
    + intros name [Heq|Hname]%elem_of_cons; [subst n | by apply Hin].
      destruct (decide (name ∈ names)) as [Hn|Hn]; [by apply Hin |].
      exists v. split; [done |]. by rewrite Hout, lookup_insert_eq.
    + intros name [Hne Hname]%not_elem_of_cons.
      by rewrite Hout, lookup_insert_ne.
Qed.

Lemma fill_raises_iff {V} (f : string → result V) (names : list string)
    (dict : gmap string V) :
  raises (fill f names dict) ↔ Exists (λ name, raises (f name)) names.
Proof.
  revert dict. induction names as [|n names IH]; intros dict.
  - split; [by intros [? ?] | by inversion 1].
  - cbn [fill]. rewrite Exists_cons. unfold mbind, result_bind.
    destruct (f n) as [v|e].
    + rewrite IH. split; [by right |]. intros [[? ?]|?]; done.
    + split; [intros _; left | intros _]; by eexists.
Qed.

(** ** VectorRegressionModelEvaluationData.getEvalStats *)

Lemma map_size_1_singleton {V} (m : gmap string V) :
  size m = 1%nat ↔ ∃ k v, m = {[k := v]}.
Proof.
  split.
  - intros Hsize. rewrite <- length_map_to_list in Hsize.
    destruct (map_to_list m) as [|[k v] [|? ?]] eqn:Hl; try done.
    exists k, v. rewrite <- (list_to_map_to_list m), Hl. done.
  - intros (k & v & ->). apply map_size_singleton.
Qed.

Section EvalStatsProperties.
Context {E : Type}.
Import VectorRegressionModelEvaluationData.

(** X18: asked for a name, getEvalStats returns the statistics stored
    under it and raises a ValueError when there are none; asked without a
    name, it returns the statistics exactly when one variable was
    predicted, and raises an Exception, not a ValueError, when there are
    none or several. *)
Theorem getEvalStats_cases (self : VectorRegressionModelEvaluationData.t E) :
  (∀ name e, getEvalStats self (Some name) = Ok e ↔ data self !! name = Some e) ∧
  (∀ name, data self !! name = None →
     getEvalStats self (Some name)
       = Raise (ValueError "No evaluation data present")) ∧
  (∀ e, getEvalStats self None = Ok e ↔ ∃ name, data self = {[name := e]}) ∧
  (size (data self) ≠ 1%nat →
     getEvalStats self None
       = Raise (Exception "Must provide name of predicted variable name, as multiple variables were predicted")).
Proof.
  destruct self as [m]. unfold getEvalStats. cbn [data].
  split; [|split; [|split]].
  - intros name e. unfold mbind, result_bind. cbn beta iota.
    destruct (m !! name); split; by intros [= ->].
  - intros name Hname. unfold mbind, result_bind. cbn beta iota. by rewrite Hname.
  - intros e. case_decide as Hsize.
    + split; [done |]. intros [name ->]. by rewrite map_size_singleton in Hsize.
    + apply map_size_1_singleton in Hsize as (k & v & ->).
      rewrite map_to_list_singleton. unfold mbind, result_bind.
      cbn [fmap list_fmap fst]. cbn beta iota.
      rewrite lookup_singleton_eq. split.
      * intros [= ->]. by exists k.
      * intros [name Heq]. f_equal.
        assert (({[k := v]} : gmap string E) !! name = Some e) as Hl
          by by rewrite Heq, lookup_singleton_eq.
        apply lookup_singleton_Some in Hl as [_ ->]. done.
  - intros Hsize. by rewrite decide_True.
Qed.

End EvalStatsProperties.

(** ** Evaluating a model on the test data *)

Lemma getitem_cases (df : DataFrame) (name : string) :
  ((name ∈ columns df) ∧ succeeds (getitem df name)) ∨
  ((name ∉ columns df) ∧ getitem df name = Raise (KeyError name)).
Proof.
  unfold getitem. case_bool_decide; [left | right]; split; try done. by eexists.
Qed.

Section RegressionEvaluation.
Context {E EC : Type} `{!RegressionStatsAPI E EC}.
Context {P : Type} `{!PredictorModel P}.
Import VectorRegressionModelEvaluator.

Lemma stats_loop_fill (predictions groundTruth : DataFrame)
    (names : list string) (statsDict : gmap string E) :
  stats_loop predictions groundTruth names statsDict
  = fill (variable_stats predictions groundTruth) names statsDict.
Proof.
  revert statsDict. induction names as [|name names IH]; intros statsDict; [done |].
  cbn [stats_loop fill]. unfold variable_stats, mbind, result_bind.
  destruct (getitem predictions name); [|done].
  destruct (getitem groundTruth name); [|done].
  destruct (RegressionEvalStats _ _); [apply IH | done].
Qed.

(** [evalModel], case by case. *)
Lemma evalModel_cases (ev : VectorModelEvaluator.t) (p : P) :
  evalModel ev p =
  match predict (InputOutputData.inputs (VectorModelEvaluator.testData ev)) p with
  | (Raise e, p') => (Raise e, p')
  | (Ok predictions, p') =>
      match getPredictedVariableNames p' with
      | None => (Raise (TypeError "'NoneType' object is not iterable"), p')
      | Some names =>
          match fill (variable_stats predictions
                        (InputOutputData.outputs (VectorModelEvaluator.testData ev)))
                  names ∅ with
          | Ok statsDict => (Ok (VectorRegressionModelEvaluationData.mk statsDict), p')
          | Raise e => (Raise e, p')
          end
      end
  end.
Proof.
  unfold evalModel, computeTestDataOutputs. run_method.
  destruct (predict _ p) as [[predictions|e] p']; [|done].
  destruct (getPredictedVariableNames p') as [names|]; [|done].
  rewrite stats_loop_fill. by destruct (fill _ names ∅).
Qed.

Lemma evalModel_Ok (ev : VectorModelEvaluator.t) (p p' : P)
    (d : VectorRegressionModelEvaluationData.t E) :
  evalModel ev p = (Ok d, p') →
  ∃ predictions names,
    predict (InputOutputData.inputs (VectorModelEvaluator.testData ev)) p
      = (Ok predictions, p') ∧
    getPredictedVariableNames p' = Some names ∧
    fill (variable_stats predictions
            (InputOutputData.outputs (VectorModelEvaluator.testData ev)))
      names ∅ = Ok (VectorRegressionModelEvaluationData.data d).
Proof.
  rewrite evalModel_cases.
  destruct (predict _ p) as [[predictions|e] p0]; [|done].
  destruct (getPredictedVariableNames p0) as [names|] eqn:Hnames; [|done].
  destruct (fill _ names ∅) as [statsDict|e] eqn:Hfill; [|done].
  intros [= <- <-]. by exists predictions, names.
Qed.

(** X19: when evalModel returns, the model predicted the test inputs, and
    the result holds statistics for exactly the predicted variable names
    of the model: for each name, the statistics of the predicted column
    of that name against the test output column of that name. *)
Theorem evalModel_statistics (ev : VectorModelEvaluator.t) (p p' : P)
    (d : VectorRegressionModelEvaluationData.t E) :
  evalModel ev p = (Ok d, p') →
  ∃ predictions names,
    predict (InputOutputData.inputs (VectorModelEvaluator.testData ev)) p
      = (Ok predictions, p') ∧
    getPredictedVariableNames p' = Some names ∧
    dom (VectorRegressionModelEvaluationData.data d) = list_to_set names ∧
    ∀ name, name ∈ names →
      ∃ y_predicted y_true e,
        getitem predictions name = Ok y_predicted ∧
        getitem (InputOutputData.outputs (VectorModelEvaluator.testData ev)) name
          = Ok y_true ∧
        RegressionEvalStats y_predicted y_true = Ok e ∧
        VectorRegressionModelEvaluationData.data d !! name = Some e.
Proof.
  intros (predictions & names & Hpred & Hnames & Hfill)%evalModel_Ok.
  exists predictions, names. split; [done |]. split; [done |].
  apply fill_Ok in Hfill as (Hdom & Hin & _). split.
  - rewrite Hdom, dom_empty_L. set_solver.
  - intros name Hname. destruct (Hin name Hname) as (e & He & Hl).
    unfold variable_stats in He.
    apply bind_Ok in He as (yp & Hyp & (yt & Hyt & He)%bind_Ok).
    by exists yp, yt, e.
Qed.

(** X20: evalModel raises when the model has no predicted variable names,
    and when one of them is not a column of the predictions or not a
    column of the test outputs. *)
Theorem evalModel_raises (ev : VectorModelEvaluator.t) (p p' : P)
    (predictions : DataFrame) :
  predict (InputOutputData.inputs (VectorModelEvaluator.testData ev)) p
    = (Ok predictions, p') →
  (getPredictedVariableNames p' = None →
     evalModel ev p
       = (Raise (TypeError "'NoneType' object is not iterable"), p')) ∧
  (∀ names name,
     getPredictedVariableNames p' = Some names → name ∈ names →
     name ∉ columns predictions ∨
     name ∉ columns (InputOutputData.outputs (VectorModelEvaluator.testData ev)) →
     raises (evalModel ev p).1).
Proof.
  intros Hpred. rewrite evalModel_cases, Hpred. split.
  - by intros ->.
  - intros names name -> Hname Hmissing.
    assert (raises (fill (variable_stats predictions
              (InputOutputData.outputs (VectorModelEvaluator.testData ev)))
              names ∅)) as [e ->]; [|by eexists].
    apply fill_raises_iff, Exists_exists. exists name. split; [done |].
    unfold variable_stats, mbind, result_bind.
    destruct (getitem_cases predictions name) as [[Hin [yp ->]]|[_ ->]];
      [|by eexists].
    destruct (getitem_cases (InputOutputData.outputs
                (VectorModelEvaluator.testData ev)) name) as [[Hin' _]|[_ ->]];
      [|by eexists].
    by destruct Hmissing.
Qed.

(** X21: on the result of evalModel, getEvalStats with a predicted
    variable name returns its statistics, and getEvalStats without a name
    succeeds exactly when the predicted variable names of the model are
    one name (possibly repeated). *)
Theorem evalModel_then_getEvalStats (ev : VectorModelEvaluator.t) (p p' : P)
    (d : VectorRegressionModelEvaluationData.t E) (names : list string) :
  evalModel ev p = (Ok d, p') →
  getPredictedVariableNames p' = Some names →
  (∀ name, name ∈ names →
     succeeds (VectorRegressionModelEvaluationData.getEvalStats d (Some name))) ∧
  (succeeds (VectorRegressionModelEvaluationData.getEvalStats d None)
     ↔ ∃ name, name ∈ names ∧ ∀ other, other ∈ names → other = name).
Proof.
  intros (predictions & names' & _ & Hnames & Hfill)%evalModel_Ok Hnames'.
  rewrite Hnames in Hnames'. injection Hnames' as ->.
  apply fill_Ok in Hfill as (Hdom & Hin & _). rewrite dom_empty_L in Hdom.
  destruct d as [m]. cbn [VectorRegressionModelEvaluationData.data] in *.
  unfold VectorRegressionModelEvaluationData.getEvalStats.
  cbn [VectorRegressionModelEvaluationData.data]. split.
  - intros name Hname. destruct (Hin name Hname) as (e & _ & Hl).
    unfold mbind, result_bind. cbn beta iota. rewrite Hl. by eexists.
  - case_decide as Hsize.
    + split; [by intros [? ?] |]. intros (name & Hname & Hall).
      exfalso. apply Hsize. apply map_size_1_singleton.
      destruct (Hin name Hname) as (e & _ & Hl). exists name, e.
      apply map_eq. intros k. destruct (decide (k = name)) as [->|Hne].
      * by rewrite lookup_singleton_eq.
      * rewrite lookup_singleton_ne by done. apply not_elem_of_dom.
        rewrite Hdom. intros Hk. apply Hne, Hall. set_solver.
    + apply map_size_1_singleton in Hsize as (k & v & ->).
      rewrite map_to_list_singleton. unfold mbind, result_bind.
      cbn [fmap list_fmap fst]. cbn beta iota. rewrite lookup_singleton_eq.
      split; [|intros _; by eexists]. intros _.
      rewrite dom_singleton_L in Hdom. exists k. split.
      * assert (k ∈ (list_to_set names : gset string)) as Hk by set_solver.
        by apply elem_of_list_to_set in Hk.
      * intros other Hother. assert (other ∈ ({[k]} : gset string)) as Ho
          by (rewrite Hdom; set_solver).
        by apply elem_of_singleton in Ho.
Qed.

End RegressionEvaluation.

(** ** Cross validation of a model *)

Section EvalModelLoop.
Context {MS D : Type} `{!VectorModel.Abstract MS}.
Variable evalModel : VectorModelEvaluator.t → Obj (VectorModel.t MS) D.

Lemma evalModel_loop_Ok (evs : list VectorModelEvaluator.t)
    (model : VectorModel.t MS) (tms tms' : list (VectorModel.t MS))
    (eds eds' : list D) (tis tis' : list (list value)) :
  _evalModel evalModel evs model tms eds tis = Ok (tms', eds', tis') →
  ∃ ntms neds,
    tms' = tms ++ ntms ∧ eds' = eds ++ neds ∧
    tis' = tis ++ ((λ ev, df_index (InputOutputData.outputs
                                      (VectorModelEvaluator.testData ev))) <$> evs) ∧
    Forall3 (fold_run evalModel model) evs ntms neds.
Proof.
  revert tms eds tis. induction evs as [|ev evs IH]; intros tms eds tis.
  - intros [= <- <- <-]. exists [], []. rewrite !app_nil_r. by repeat split; try constructor.
  - cbn [_evalModel].
    destruct (fitModel ev model) as [[[]|e] fitted] eqn:Hfit; [|done].
    destruct (evalModel ev fitted) as [[ed|e] trained] eqn:Heval; [|done].
    intros (ntms & neds & -> & -> & -> & Hall)%IH.
    exists (trained :: ntms), (ed :: neds). rewrite <- !(assoc (++)).
    repeat split; try done. constructor; [by exists fitted | done].
Qed.

(** X22: when the loop over the folds returns, there is one trained model,
    one evaluation result and one list of test row labels per evaluator,
    in the order of the evaluators; each trained model is the given model
    fitted on that evaluator's training data and then evaluated by it, so
    no fold starts from a model another fold has trained. *)
Theorem evalModel_loop_per_fold (evs : list VectorModelEvaluator.t)
    (model : VectorModel.t MS) (tms : list (VectorModel.t MS))
    (eds : list D) (tis : list (list value)) :
  _evalModel evalModel evs model [] [] [] = Ok (tms, eds, tis) →
  Forall3 (fold_run evalModel model) evs tms eds ∧
  tis = (λ ev, df_index (InputOutputData.outputs
                           (VectorModelEvaluator.testData ev))) <$> evs.
Proof. by intros (ntms & neds & -> & -> & -> & Hall)%evalModel_loop_Ok. Qed.

End EvalModelLoop.

Lemma Forall3_Forall_m {A B C} (P : A → B → C → Prop) (Q : B → Prop)
    (l : list A) (k : list B) (k' : list C) :
  (∀ x y z, P x y z → Q y) → Forall3 P l k k' → Forall Q k.
Proof. intros HPQ. induction 1; constructor; eauto. Qed.

Section RegressionCrossValidation.
Context {G : Type} `{!RandomStateAPI G}.
Context {E EC : Type} `{!RegressionStatsAPI E EC}.
Context {MS : Type} `{!VectorModel.Abstract MS}.

(** What one fold of a regression cross validation leaves behind. *)
Lemma regression_fold_facts (data : InputOutputData.t)
    (indices : list nat * list nat) (ev : VectorModelEvaluator.t)
    (model trained : VectorModel.t MS)
    (ed : VectorRegressionModelEvaluationData.t E) :
  built_from data indices ev →
  fold_run VectorRegressionModelEvaluator.evalModel model ev trained ed →
  VectorModel.getPredictedVariableNames trained
    = Some (columns (InputOutputData.outputs data)) ∧
  ∃ predictions,
    fill (variable_stats predictions
            (InputOutputData.outputs (VectorModelEvaluator.testData ev)))
      (columns (InputOutputData.outputs data)) ∅
    = Ok (VectorRegressionModelEvaluationData.data ed).
Proof.
  intros [Htrain _] (fitted & Hfit & Heval).
  apply filterIndices_Ok in Htrain as (_ & Hout & _).
  apply iloc_Ok_len in Hout as [_ Hcols].
  unfold fitModel in Hfit.
  apply fit_Ok in Hfit as (? & ? & ? & ? & ? & _ & _ & _ & ->).
  apply evalModel_Ok in Heval as (predictions & names & Hpred & Hnames & Hfill).
  cbn [predict VectorModel_predictor] in Hpred.
  apply predict_state in Hpred. rewrite Hpred in Hnames |- *.
  cbn in Hnames |- *. rewrite Hcols in Hnames |- *.
  split; [done |]. injection Hnames as <-. by exists predictions.
Qed.


Lemma regression_crossvalidation_Ok (data : InputOutputData.t)
    (folds seed : Z) (cv : VectorModelCrossValidator.t)
    (model : VectorModel.t MS)
    (res : VectorRegressionModelCrossValidationData.t E (VectorModel.t MS)) :
  VectorModelCrossValidator.__init__ data folds seed = Ok cv →
  VectorRegressionModelCrossValidator.evalModel cv model = Ok res →
  let evs := VectorModelCrossValidator.modelEvaluators cv in
  VectorRegressionModelCrossValidationData.predictedVarNames res
    = Some (columns (InputOutputData.outputs data)) ∧
  VectorRegressionModelCrossValidationData.testIndicesList res
    = (λ ev, df_index (InputOutputData.outputs
                         (VectorModelEvaluator.testData ev))) <$> evs ∧
  Forall3 (λ ev trained ed,
             VectorModel.getPredictedVariableNames trained
               = Some (columns (InputOutputData.outputs data)) ∧
             ∃ predictions,
               fill (variable_stats predictions
                       (InputOutputData.outputs (VectorModelEvaluator.testData ev)))
                 (columns (InputOutputData.outputs data)) ∅
               = Ok (VectorRegressionModelEvaluationData.data ed))
    evs
    (VectorRegressionModelCrossValidationData.trainedModels res)
    (VectorRegressionModelCrossValidationData.evalDataList res).
Proof.
  intros Hcv Heval evs.
  apply crossvalidator_init_Ok in Hcv as (idx & _ & Hbuilt). fold evs in Hbuilt.
  unfold VectorRegressionModelCrossValidator.evalModel in Heval. fold evs in Heval.
  apply bind_Ok in Heval as ([[tms eds] tis] & Hloop & Hres).
  apply evalModel_loop_Ok in Hloop as (ntms & neds & Htms & Heds & Htis & Hall).
  simpl in Htms, Heds, Htis. subst tms eds tis.
  assert (Forall3 (λ ev trained ed,
             VectorModel.getPredictedVariableNames trained
               = Some (columns (InputOutputData.outputs data)) ∧
             ∃ predictions,
               fill (variable_stats predictions
                       (InputOutputData.outputs (VectorModelEvaluator.testData ev)))
                 (columns (InputOutputData.outputs data)) ∅
               = Ok (VectorRegressionModelEvaluationData.data ed))
            evs ntms neds) as Hfacts.
  { clear Hres. revert idx Hbuilt.
    induction Hall as [|ev tm ed evs' tms' eds' Hrun _ IH]; intros idx Hbuilt;
      [constructor |].
    inversion Hbuilt as [|i ? idx' ? Hb Hbuilt']; subst.
    constructor; [by eapply regression_fold_facts | by eapply IH]. }
  destruct ntms as [|first ntms]; [done |].
  apply bind_Ok in Hres as (names & [= <-] & [= <-]).
  cbn [VectorRegressionModelCrossValidationData.predictedVarNames
       VectorRegressionModelCrossValidationData.testIndicesList
       VectorRegressionModelCrossValidationData.trainedModels
       VectorRegressionModelCrossValidationData.evalDataList].
  split; [|by split].
  inversion Hfacts as [|? ? ? ? ? ? [Hnames _]]; by subst.
Qed.

(** X24: when the regression cross validation of a model returns, every
    trained model predicts the output columns of the data set, so the
    predicted variable names taken from the first fold's model are those
    of every fold; there is one trained model and one evaluation result
    per evaluator, and the test row labels of every fold are kept. *)
Theorem crossvalidation_names (data : InputOutputData.t)
    (folds seed : Z) (cv : VectorModelCrossValidator.t)
    (model : VectorModel.t MS)
    (res : VectorRegressionModelCrossValidationData.t E (VectorModel.t MS)) :
  VectorModelCrossValidator.__init__ data folds seed = Ok cv →
  VectorRegressionModelCrossValidator.evalModel cv model = Ok res →
  let evs := VectorModelCrossValidator.modelEvaluators cv in
  VectorRegressionModelCrossValidationData.predictedVarNames res
    = Some (columns (InputOutputData.outputs data)) ∧
  Forall (λ trained, VectorModel.getPredictedVariableNames trained
                       = Some (columns (InputOutputData.outputs data)))
    (VectorRegressionModelCrossValidationData.trainedModels res) ∧
  length (VectorRegressionModelCrossValidationData.trainedModels res)
    = length evs ∧
  length (VectorRegressionModelCrossValidationData.evalDataList res)
    = length evs ∧
  VectorRegressionModelCrossValidationData.testIndicesList res
    = (λ ev, df_index (InputOutputData.outputs
                         (VectorModelEvaluator.testData ev))) <$> evs.
Proof.
  intros Hcv Heval evs.
  destruct (regression_crossvalidation_Ok _ _ _ _ _ _ Hcv Heval)
    as (Hnames & Htis & Hall). fold evs in Htis, Hall.
  split; [done |]. split; [|split; [|split]]; try done.
  - eapply Forall3_Forall_m; [|exact Hall]. by intros ??? [? _].
  - symmetry. by eapply Forall3_length_lm.
  - symmetry. by eapply Forall3_length_lr.
Qed.

(** X25: after the regression cross validation of a data set with one
    output column, getEvalStatsCollection, asked without a name or with
    the name of that column, hands the collection constructor exactly one
    statistics object per fold, the one stored under the column's name,
    in the order of the folds. *)
Theorem crossvalidation_collection (data : InputOutputData.t)
    (folds seed : Z) (cv : VectorModelCrossValidator.t)
    (model : VectorModel.t MS) (name : string)
    (res : VectorRegressionModelCrossValidationData.t E (VectorModel.t MS)) :
  VectorModelCrossValidator.__init__ data folds seed = Ok cv →
  VectorRegressionModelCrossValidator.evalModel cv model = Ok res →
  columns (InputOutputData.outputs data) = [name] →
  ∃ evalStatsList,
    Forall2 (λ ed e, VectorRegressionModelEvaluationData.data ed !! name = Some e)
      (VectorRegressionModelCrossValidationData.evalDataList res) evalStatsList ∧
    length evalStatsList
      = length (VectorModelCrossValidator.modelEvaluators cv) ∧
    VectorRegressionModelCrossValidationData.getEvalStatsCollection res None
      = RegressionEvalStatsCollection evalStatsList ∧
    VectorRegressionModelCrossValidationData.getEvalStatsCollection res (Some name)
      = RegressionEvalStatsCollection evalStatsList.
Proof.
  intros Hcv Heval Hcols.
  destruct (regression_crossvalidation_Ok _ _ _ _ _ _ Hcv Heval)
    as (Hnames & _ & Hall). rewrite Hcols in Hnames, Hall.
  assert (∃ l, Forall2 (λ ed e,
                 VectorRegressionModelEvaluationData.data ed !! name = Some e)
               (VectorRegressionModelCrossValidationData.evalDataList res) l)
    as [l Hl].
  { induction Hall as [|ev tm ed ? ? ? [_ [predictions Hfill]] _ [l IH]];
      [by exists [] |].
    apply fill_Ok in Hfill as (_ & Hin & _).
    destruct (Hin name) as (e & _ & He); [by left |].
    exists (e :: l). by constructor. }
  exists l. split; [done |].
  assert (mapM (λ evalData,
            VectorRegressionModelEvaluationData.getEvalStats evalData (Some name))
            (VectorRegressionModelCrossValidationData.evalDataList res) = Ok l)
    as HmapM.
  { apply mapM_Ok_Forall2. eapply Forall2_impl; [exact Hl |].
    intros ed e He. cbn beta.
    unfold VectorRegressionModelEvaluationData.getEvalStats, mbind, result_bind.
    cbn beta iota. by rewrite He. }
  split; [|split].
  - apply Forall2_length in Hl. rewrite <- Hl. symmetry. by eapply Forall3_length_lr.
  - unfold VectorRegressionModelCrossValidationData.getEvalStatsCollection.
    rewrite Hnames. cbn [length]. rewrite decide_False by (by intros ?).
    unfold mbind at 1, result_bind at 1. by rewrite HmapM.
  - unfold VectorRegressionModelCrossValidationData.getEvalStatsCollection.
    unfold mbind at 1, result_bind at 1. by rewrite HmapM.
Qed.

End RegressionCrossValidation.

(** ** Class probabilities *)

Section ProbabilityProperties.
Context {CS : Type} `{!VectorClassificationModel.Abstract CS}.
Import VectorModel VectorClassificationModel.

(** X26: predict_proba returns probabilities only from a fitted model and
    only for a frame whose transformed column list is the recorded one;
    what it returns is the frame of the classifier's own routine as it
    is, neither relabelled nor passed through output transformers, and
    like predict it changes nothing that fit recorded. *)
Theorem predict_proba_only_when_fitted (x y : DataFrame)
    (self self' : VectorClassificationModel.t CS) :
  predict_proba x self = (Ok y, self') →
  getPredictedVariableNames self ≠ None ∧
  ∃ x',
    (_applyTransformers x false (_inputTransformers self)).1 = Ok x' ∧
    _modelInputVariableNames self = Some (columns x') ∧
    _predict_proba self x' = (Ok y, classifier (own self')) ∧
    self' = set_classifier (classifier (own self')) self.
Proof.
  unfold predict_proba, call_predict_proba. run_method.
  rewrite checkAndTransformInputs_cases.
  destruct (_applyTransformers x false _).1 as [x'|e] eqn:Hx'; [|done].
  case_bool_decide as Hnames; [done |].
  case_bool_decide as Hcols; [done |].
  destruct (_predict_proba self x') as [[y'|e] c] eqn:Hproba; [|done].
  intros [= <- <-]. split; [done |]. by exists x'.
Qed.

End ProbabilityProperties.

(** ** The number of chained predictions *)

Section ChainedCalls.
Context {P : Type} `{!PredictorModel P}.

Lemma chain_calls (k : nat) (y : DataFrame) (r : result DataFrame)
    (c c' : Chained.t (Recorder P)) :
  Chained.chain k y c = (r, c') →
  ∃ more,
    calls (Chained.predictor c') = calls (Chained.predictor c) ++ more ∧
    (length more ≤ k)%nat ∧
    (succeeds r → length more = k) ∧
    Chained.nChainedPredictions c' = Chained.nChainedPredictions c.
Proof.
  revert y c. induction k as [|k IH]; intros y c.
  - intros [= <- <-]. exists []. rewrite app_nil_r. by repeat split.
  - cbn [Chained.chain]. unfold Chained.call_predictor. run_method.
    cbn [predict Recorder_predictor].
    destruct (predict y (recorded (Chained.predictor c))) as [[y'|e] p'] eqn:Hp.
    + intros (more & Hcalls & Hle & Hok & Hn)%IH.
      cbn [Chained.predictor Chained.set_predictor calls
           Chained.nChainedPredictions] in Hcalls, Hn.
      exists (y :: more). rewrite Hcalls, <- (assoc (++)). cbn [length].
      repeat split; [lia | | done]. intros Hr. by rewrite Hok.
    + intros [= <- <-]. exists [y]. cbn. repeat split; [lia |].
      by intros [? ?].
Qed.

(** X27: whatever the configured number n of chained predictions, the
    chained predict calls the wrapped predictor at least once, first on
    its input, and never more than max(1, n) times; when it returns, it
    has called it exactly max(1, n) times, so with n = 0 or a negative n
    it still predicts once. *)
Theorem chained_predict_call_count (p : P) (n : Z) (x : DataFrame)
    (r : result DataFrame) (c' : Chained.t (Recorder P)) :
  Chained.predict x (Chained.__init__ (mkRecorder p []) n) = (r, c') →
  let made := calls (Chained.predictor c') in
  head made = Some x ∧
  (1 ≤ length made ≤ Z.to_nat (Z.max 1 n))%nat ∧
  (succeeds r → length made = Z.to_nat (Z.max 1 n)).
Proof.
  rewrite chained_predict_first.
  cbn [Chained.predictor Chained.__init__ Chained.nChainedPredictions
       predict Recorder_predictor recorded calls].
  destruct (predict x p) as [[y|e] p'] eqn:Hp.
  - case_bool_decide as Hdim.
    + intros [= <- <-]. cbn. repeat split; [lia.. |]. by intros [? ?].
    + intros (more & Hcalls & Hle & Hok & _)%chain_calls.
      cbn [Chained.predictor Chained.set_predictor calls] in Hcalls.
      cbv zeta. rewrite Hcalls. cbn [app head length].
      repeat split; [lia.. |]. intros Hr. rewrite (Hok Hr). lia.
  - intros [= <- <-]. cbn. repeat split; [lia.. |]. by intros [? ?].
Qed.

End ChainedCalls.

(** ** Correlations of inputs and outputs *)

Section CorrelationProperties.
Context {R : Type} (pearsonr : DataFrame → DataFrame → result (R * R)).
Import Correlation.

Lemma inner_loop_fill (self : InputOutputData.t) (outputCol : string)
    (outputSeries : DataFrame) (inputCols : list string) (row : gmap string R) :
  getitem (InputOutputData.outputs self) outputCol = Ok outputSeries →
  inner_loop pearsonr (InputOutputData.inputs self) outputSeries inputCols row
  = fill (coefficient pearsonr self outputCol) inputCols row.
Proof.
  intros Hout. revert row. induction inputCols as [|i inputCols IH]; intros row;
    [done |].
  cbn [inner_loop fill].
  assert (coefficient pearsonr self outputCol i =
            (inputSeries ← getitem (InputOutputData.inputs self) i;
             ' (pcc, pvalue) ← pearsonr inputSeries outputSeries;
             Ok pcc)) as ->
    by (unfold coefficient; by rewrite Hout).
  unfold mbind, result_bind.
  destruct (getitem (InputOutputData.inputs self) i) as [inputSeries|]; [|done].
  destruct (pearsonr inputSeries outputSeries) as [[pcc pvalue]|]; [apply IH | done].
Qed.

Lemma outer_loop_fill (self : InputOutputData.t) (outputCols : list string)
    (correlations : gmap string (gmap string R)) :
  Forall (λ o, o ∈ columns (InputOutputData.outputs self)) outputCols →
  outer_loop pearsonr self outputCols correlations
  = fill (λ o, fill (coefficient pearsonr self o)
                 (columns (InputOutputData.inputs self)) ∅)
      outputCols correlations.
Proof.
  intros Hcols. revert correlations.
  induction Hcols as [|o outputCols Ho _ IH]; intros correlations; [done |].
  cbn [outer_loop fill].
  destruct (getitem_cases (InputOutputData.outputs self) o)
    as [[_ [outputSeries Hout]]|[? _]]; [|done].
  rewrite Hout. unfold mbind at 1 3, result_bind at 1 3.
  rewrite (inner_loop_fill self o) by done.
  unfold mbind, result_bind.
  destruct (fill (coefficient pearsonr self o) _ ∅); [apply IH | done].
Qed.

(** X28: when computeInputOutputCorrelation returns, the result has one
    entry per output column, each entry has one coefficient per input
    column, and the coefficient stored for a pair is the one pearsonr
    gives for the input column and the output column of these names;
    the computation raises exactly when pearsonr raises for some pair. *)
Theorem computeInputOutputCorrelation_entries (self : InputOutputData.t) :
  (∀ correlations,
     computeInputOutputCorrelation pearsonr self = Ok correlations →
     dom correlations = list_to_set (columns (InputOutputData.outputs self)) ∧
     ∀ outputCol, outputCol ∈ columns (InputOutputData.outputs self) →
       ∃ row,
         correlations !! outputCol = Some row ∧
         dom row = list_to_set (columns (InputOutputData.inputs self)) ∧
         ∀ inputCol, inputCol ∈ columns (InputOutputData.inputs self) →
           ∃ pcc, coefficient pearsonr self outputCol inputCol = Ok pcc ∧
                  row !! inputCol = Some pcc) ∧
  (raises (computeInputOutputCorrelation pearsonr self) ↔
     ∃ outputCol inputCol,
       outputCol ∈ columns (InputOutputData.outputs self) ∧
       inputCol ∈ columns (InputOutputData.inputs self) ∧
       raises (coefficient pearsonr self outputCol inputCol)).
Proof.
  unfold computeInputOutputCorrelation.
  rewrite outer_loop_fill by (by apply Forall_forall). split.
  - intros correlations (Hdom & Hin & _)%fill_Ok. split.
    + rewrite Hdom, dom_empty_L. set_solver.
    + intros o Ho. destruct (Hin o Ho) as (row & Hrow & Hl).
      exists row. split; [done |].
      apply fill_Ok in Hrow as (Hdomr & Hinr & _). split.
      * rewrite Hdomr, dom_empty_L. set_solver.
      * done.
  - rewrite fill_raises_iff, Exists_exists. split.
    + intros (o & Ho & Hr%fill_raises_iff). apply Exists_exists in Hr as (i & Hi & Hr).
      by exists o, i.
    + intros (o & i & Ho & Hi & Hr). exists o. split; [done |].
      apply fill_raises_iff, Exists_exists. by exists i.
Qed.

End CorrelationProperties.

(** ** The further properties on the example objects *)

Lemma filterIndices_rows_witness :
  ∃ d',
    InputOutputData.filterIndices Examples.data5 [3; 0; -1] = Ok d' ∧
    InputOutputData.__len__ d' = 3%nat ∧
    Forall2 (λ i r, rows Examples.X5 !! position 5 i = Some r)
      [3; 0; -1] (rows (InputOutputData.inputs d')).
Proof.
  eexists. split; [reflexivity |].
  destruct (filterIndices_rows Examples.data5 _ [3; 0; -1] eq_refl)
    as (_ & _ & Hlen & Hin & _).
  split; [exact Hlen | exact Hin].
Defined.

Lemma filterIndices_raises_iff_witness :
  instance Examples.data5 ∧
  (raises (InputOutputData.filterIndices Examples.data5 [0; 5])
     ↔ Exists (out_of_bounds 5) [0; 5]).
Proof.
  split; [exact data5_instance |].
  exact (proj1 (filterIndices_raises_iff Examples.data5 [0; 5] data5_instance)).
Defined.

Lemma filterIndices_all_witness :
  instance Examples.data5 ∧
  InputOutputData.filterIndices Examples.data5 (range 5) = Ok Examples.data5.
Proof.
  split; [exact data5_instance |].
  exact (filterIndices_all Examples.data5 data5_instance).
Defined.

Lemma filterIndices_compose_witness :
  ∃ d1 d2,
    InputOutputData.filterIndices Examples.data5 [4; 2; 0] = Ok d1 ∧
    InputOutputData.filterIndices d1 [-1; 1] = Ok d2 ∧
    compose_indices [4; 2; 0] [-1; 1] = [0; 2] ∧
    InputOutputData.filterIndices Examples.data5 [0; 2] = Ok d2.
Proof.
  eexists _, _. split; [reflexivity |]. split; [reflexivity |].
  split; [reflexivity |].
  exact (filterIndices_compose Examples.data5 _ _ [4; 2; 0] [-1; 1]
           eq_refl eq_refl).
Defined.

Lemma filterIndices_keeps_labels_aligned_witness :
  ∃ d',
    df_index Examples.X5 = df_index Examples.Y5 ∧
    InputOutputData.filterIndices Examples.data5 [3; 0; -1] = Ok d' ∧
    df_index (InputOutputData.inputs d') = df_index (InputOutputData.outputs d').
Proof.
  eexists. split; [reflexivity |]. split; [reflexivity |].
  exact (filterIndices_keeps_labels_aligned Examples.data5 _ [3; 0; -1]
           eq_refl eq_refl).
Defined.



Lemma crossvalidator_fold_partition_witness :
  @permutes_range Z Examples.rotating_generator ∧ 0 < 2 ∧
  ∃ cv,
    @VectorModelCrossValidator.__init__ Z Examples.rotating_generator
      Examples.data5 2 42 = Ok cv ∧
    Forall (λ ev,
              InputOutputData.__len__ (VectorModelEvaluator.testData ev) = 2%nat ∧
              (InputOutputData.__len__ (VectorModelEvaluator.trainingData ev)
               + InputOutputData.__len__ (VectorModelEvaluator.testData ev) = 5)%nat)
      (VectorModelCrossValidator.modelEvaluators cv).
Proof.
  pose proof rotating_generator_permutes as Hg.
  assert (0 < 2) as H2 by lia.
  split; [done |]. split; [done |].
  eexists. split; [reflexivity |].
  destruct (@crossvalidator_fold_partition Z Examples.rotating_generator Hg
              Examples.data5 2 42 _ H2 eq_refl) as (idx & _ & _ & _ & Hevs).
  exact Hevs.
Defined.

Lemma crossvalidator_test_blocks_witness :
  @permutes_range Z Examples.rotating_generator ∧ 0 < 2 ∧
  ∃ idx,
    @VectorModelCrossValidator.folds_indices Z Examples.rotating_generator 5 2 42
      = Ok idx ∧
    concat idx.*2 = [2; 3; 4; 0]%nat ∧ NoDup (concat idx.*2).
Proof.
  pose proof rotating_generator_permutes as Hg.
  assert (0 < 2) as H2 by lia.
  split; [done |]. split; [done |].
  eexists. split; [reflexivity |].
  destruct (@crossvalidator_test_blocks Z Examples.rotating_generator Hg
              5 2 42 _ H2 eq_refl) as (Hconcat & Hnd & _).
  split; [exact Hconcat | exact Hnd].
Defined.

Lemma predict_only_when_fitted_witness :
  let model := @VectorModel.__init__ unit [] [] [] () in
  let fitted :=
    (@VectorModel.fit unit Examples.Echo Examples.X5 Examples.Y5 model).2 in
  @VectorModel.predict unit Examples.Echo Examples.X5 fitted
    = (Ok Examples.X5, fitted) ∧
  VectorModel.getPredictedVariableNames fitted ≠ None ∧
  VectorModel._modelInputVariableNames fitted = Some (columns Examples.X5).
Proof.
  intros model fitted. split; [reflexivity |].
  destruct (@predict_only_when_fitted unit Examples.Echo Examples.X5
              Examples.X5 fitted fitted eq_refl)
    as (Hnames & x' & Hx' & Hcols).
  split; [exact Hnames |]. injection Hx' as <-. exact Hcols.
Defined.

Lemma predict_keeps_row_labels_witness :
  let model := @VectorModel.__init__ unit [] [] [] () in
  let fitted :=
    (@VectorModel.fit unit Examples.Echo Examples.X5 Examples.Y5 model).2 in
  @VectorModel.predict unit Examples.Echo Examples.X5 fitted
    = (Ok Examples.X5, fitted) ∧
  df_index Examples.X5 = df_index Examples.X5 ∧ len Examples.X5 = len Examples.X5.
Proof.
  intros model fitted. split; [reflexivity |].
  destruct (@predict_keeps_row_labels unit Examples.Echo Examples.X5
              Examples.X5 fitted fitted eq_refl)
    as (_ & Hlabels).
  apply Hlabels; reflexivity.
Defined.

Lemma predict_keeps_fitted_state_witness :
  let model := @VectorModel.__init__ unit [] [] [] () in
  let fitted :=
    (@VectorModel.fit unit Examples.Broken Examples.X5 Examples.Y5 model).2 in
  let after :=
    (@VectorModel.predict unit Examples.Broken Examples.X5 fitted).2 in
  @VectorModel.predict unit Examples.Broken Examples.X5 fitted
    = (Raise (Raised "not implemented"), after) ∧
  VectorModel.getPredictedVariableNames after
    = VectorModel.getPredictedVariableNames fitted.
Proof.
  intros model fitted after. split; [reflexivity |].
  destruct (@predict_keeps_fitted_state unit Examples.Broken Examples.X5
              (Raise (Raised "not implemented")) fitted after eq_refl)
    as (_ & _ & _ & Hnames & _).
  exact Hnames.
Defined.

Lemma failed_fit_leaves_model_unusable_witness :
  let model := @VectorModel.__init__ unit [MoreExamples.failing_transformer]
                 [] [] () in
  VectorModel._modelInputVariableNames model = None ∧
  transformer_failed model Examples.X5 Examples.Y5 (Raised "cannot fit") ∧
  ∃ self',
    @VectorModel.fit unit Examples.Echo Examples.X5 Examples.Y5 model
      = (Raise (Raised "cannot fit"), self') ∧
    VectorModel.getPredictedVariableNames self' = Some (columns Examples.Y5) ∧
    ∀ x, raises (@VectorModel.predict unit Examples.Echo x self').1.
Proof.
  assert (transformer_failed
            (@VectorModel.__init__ unit [MoreExamples.failing_transformer] [] [] ())
            Examples.X5 Examples.Y5 (Raised "cannot fit")) as Hfail
    by (left; reflexivity).
  split; [reflexivity |]. split; [exact Hfail |].
  exact (@failed_fit_leaves_model_unusable unit Examples.Echo
           Examples.X5 Examples.Y5 (Raised "cannot fit")
           (VectorModel.__init__ [MoreExamples.failing_transformer] [] [] ())
           eq_refl Hfail).
Defined.

Lemma fit_failure_in_model_passes_check_witness :
  let model := @VectorModel.__init__ unit [] [] [] () in
  ∃ self',
    @VectorModel.fit unit MoreExamples.Untrainable Examples.X5 Examples.Y5 model
      = (Raise (Raised "did not converge"), self') ∧
    @VectorModel._checkAndTransformInputs unit Examples.X5 self'
      = (Ok Examples.X5, self').
Proof.
  destruct (@fit_failure_in_model_passes_check unit MoreExamples.Untrainable
              Examples.X5 Examples.Y5 Examples.X5 Examples.Y5
              (Raised "did not converge") [] [] ()
              (VectorModel.__init__ [] [] [] ()) eq_refl eq_refl eq_refl)
    as (self' & Hfit & _ & Hcheck).
  exists self'. split; [exact Hfit |]. apply Hcheck; [|reflexivity].
  cbn in Hfit. injection Hfit as <-. reflexivity.
Defined.

Lemma rule_based_pipeline_ignores_fit_witness :
  Forall rule_based [Examples.rename_columns "_scaled"] ∧
  VectorModel._applyTransformers Examples.Y5 true
    [Examples.rename_columns "_scaled"]
  = VectorModel._applyTransformers Examples.Y5 false
      [Examples.rename_columns "_scaled"].
Proof.
  assert (Forall rule_based [Examples.rename_columns "_scaled"]) as Hrule
    by (repeat constructor).
  split; [exact Hrule |].
  exact (proj1 (rule_based_pipeline_ignores_fit Examples.Y5 _ Hrule)).
Defined.

Lemma evalModel_statistics_witness :
  let d := (@VectorRegressionModelEvaluator.evalModel _ _ MoreExamples.PairStats
              unit MoreExamples.IdentityA MoreExamples.evaluator5a ()).1 in
  ∃ stats,
    d = Ok stats ∧
    dom (VectorRegressionModelEvaluationData.data stats) = list_to_set ["a"].
Proof.
  eexists. split; [reflexivity |].
  match goal with |- dom (VectorRegressionModelEvaluationData.data ?stats) = _ =>
    destruct (@evalModel_statistics _ _ MoreExamples.PairStats
                unit MoreExamples.IdentityA MoreExamples.evaluator5a () () stats
                eq_refl)
      as (predictions & names & _ & Hnames & Hdom & _)
  end.
  injection Hnames as <-. exact Hdom.
Defined.

Lemma evalModel_raises_witness :
  @predict unit Examples.Identity
    (InputOutputData.inputs (VectorModelEvaluator.testData MoreExamples.evaluator5a)) ()
    = (Ok Examples.X5, ()) ∧
  raises (@VectorRegressionModelEvaluator.evalModel _ _ MoreExamples.PairStats
            unit Examples.Identity MoreExamples.evaluator5a ()).1.
Proof.
  split; [reflexivity |].
  destruct (@evalModel_raises _ _ MoreExamples.PairStats unit Examples.Identity
              MoreExamples.evaluator5a () () Examples.X5 eq_refl) as [_ Hmissing].
  apply (Hmissing ["a"; "b"] "b" eq_refl).
  - apply list_elem_of_lookup. by exists 1%nat.
  - right. vm_compute. intros H. apply list_elem_of_In in H. simpl in H.
    destruct H as [H | []]. discriminate H.
Defined.

Lemma evalModel_then_getEvalStats_witness :
  let d := (@VectorRegressionModelEvaluator.evalModel _ _ MoreExamples.PairStats
              unit MoreExamples.IdentityA MoreExamples.evaluator5a ()).1 in
  ∃ stats,
    d = Ok stats ∧
    @getPredictedVariableNames unit MoreExamples.IdentityA () = Some ["a"] ∧
    succeeds (VectorRegressionModelEvaluationData.getEvalStats stats None).
Proof.
  eexists. split; [reflexivity |]. split; [reflexivity |].
  match goal with
  | |- succeeds (VectorRegressionModelEvaluationData.getEvalStats ?stats None) =>
    destruct (@evalModel_then_getEvalStats _ _ MoreExamples.PairStats
                unit MoreExamples.IdentityA MoreExamples.evaluator5a () () stats
                ["a"] eq_refl eq_refl) as [_ Hnone]
  end.
  apply Hnone. exists "a". split.
  - apply list_elem_of_lookup. by exists 0%nat.
  - intros other Hother. apply list_elem_of_In in Hother. simpl in Hother.
    destruct Hother as [<- | []]. reflexivity.
Defined.

Lemma evalModel_loop_per_fold_witness :
  let model := @VectorModel.__init__ unit [] [] [] () in
  let evalModel :=
    @VectorRegressionModelEvaluator.evalModel _ _ MoreExamples.PairStats
      (VectorModel.t unit) (@VectorModel_predictor unit Examples.Echo) in
  ∃ tms eds tis,
    @_evalModel unit _ Examples.Echo evalModel [MoreExamples.evaluator5a]
      model [] [] [] = Ok (tms, eds, tis) ∧
    Forall3 (@fold_run unit _ Examples.Echo evalModel model)
      [MoreExamples.evaluator5a] tms eds ∧
    tis = [df_index MoreExamples.Y5a].
Proof.
  intros model evalModel. eexists _, _, _. split; [reflexivity |].
  match goal with |- Forall3 _ _ ?tms ?eds ∧ ?tis = _ =>
    exact (@evalModel_loop_per_fold unit _ Examples.Echo evalModel
             [MoreExamples.evaluator5a] model tms eds tis eq_refl)
  end.
Defined.


Lemma crossvalidation_names_witness :
  let model := @VectorModel.__init__ unit [] [] [] () in
  ∃ cv res,
    @VectorModelCrossValidator.__init__ Z Examples.rotating_generator
      MoreExamples.data5a 2 42 = Ok cv ∧
    @VectorRegressionModelCrossValidator.evalModel _ _ MoreExamples.PairStats
      unit Examples.Echo cv model = Ok res ∧
    VectorRegressionModelCrossValidationData.predictedVarNames res = Some ["a"] ∧
    length (VectorRegressionModelCrossValidationData.trainedModels res) = 2%nat.
Proof.
  intros model. eexists _, _. split; [reflexivity |]. split; [reflexivity |].
  match goal with
  | |- VectorRegressionModelCrossValidationData.predictedVarNames ?res = _ ∧ _ =>
    destruct (@crossvalidation_names Z Examples.rotating_generator
                _ _ MoreExamples.PairStats unit Examples.Echo
                MoreExamples.data5a 2 42 _ model res eq_refl eq_refl)
      as (Hnames & _ & Hlen & _)
  end.
  split; [exact Hnames | exact Hlen].
Defined.

Lemma crossvalidation_collection_witness :
  let model := @VectorModel.__init__ unit [] [] [] () in
  ∃ cv res,
    @VectorModelCrossValidator.__init__ Z Examples.rotating_generator
      MoreExamples.data5a 2 42 = Ok cv ∧
    @VectorRegressionModelCrossValidator.evalModel _ _ MoreExamples.PairStats
      unit Examples.Echo cv model = Ok res ∧
    columns (InputOutputData.outputs MoreExamples.data5a) = ["a"] ∧
    ∃ evalStatsList,
      length evalStatsList = 2%nat ∧
      @VectorRegressionModelCrossValidationData.getEvalStatsCollection
        _ _ MoreExamples.PairStats _ res None = Ok evalStatsList.
Proof.
  intros model. eexists _, _. split; [reflexivity |]. split; [reflexivity |].
  split; [reflexivity |].
  edestruct (λ cv res H1 H2,
               @crossvalidation_collection Z Examples.rotating_generator
                 _ _ MoreExamples.PairStats unit Examples.Echo
                 MoreExamples.data5a 2 42 cv model "a" res H1 H2 eq_refl)
    as (l & _ & Hlen & Hnone & _); [reflexivity | reflexivity |].
  exists l. split; [exact Hlen | exact Hnone].
Defined.

Lemma predict_proba_only_when_fitted_witness :
  let model := @VectorClassificationModel.__init__ unit [] () in
  let fitted :=
    (@VectorModel.fit _ (@VectorClassificationModel.vector_model unit
                           Examples.EchoClassifier)
       Examples.X5 Examples.Y5 model).2 in
  @VectorClassificationModel.predict_proba unit Examples.EchoClassifier
    Examples.X5 fitted = (Ok Examples.X5, fitted) ∧
  VectorModel.getPredictedVariableNames fitted ≠ None.
Proof.
  intros model fitted. split; [reflexivity |].
  exact (proj1 (@predict_proba_only_when_fitted unit Examples.EchoClassifier
                  Examples.X5 Examples.X5 fitted fitted eq_refl)).
Defined.

Lemma chained_predict_call_count_witness :
  let run := @ChainedVectorRegressionPredictor.predict (Recorder nat)
               (@Recorder_predictor nat MoreExamples.Counting) Examples.X5
               (ChainedVectorRegressionPredictor.__init__ (mkRecorder 0%nat []) 3) in
  run.1 = Ok Examples.X5 ∧
  length (calls (ChainedVectorRegressionPredictor.predictor run.2)) = 3%nat ∧
  recorded (ChainedVectorRegressionPredictor.predictor run.2) = 3%nat.
Proof.
  intros run. split; [reflexivity |]. split; [|reflexivity].
  destruct (@chained_predict_call_count nat MoreExamples.Counting 0%nat 3
              Examples.X5 run.1 run.2 eq_refl) as (_ & _ & Hok).
  apply Hok. by eexists.
Defined.
